(** * Insurance Form Helper: the page controller and the PDF viewer

    A shallow embedding of [src/page.tsx] (the page controller and its
    backend client [callRAG]), [src/PDFInner.tsx] (the document viewer) and
    the pass-through loader [PDFHighlighter], followed by the properties
    the specification states about them.

    The handlers are embedded as programs of a small free monad over the
    effects the source performs (React state setters, browser calls,
    [fetch]); an interpreter runs a program up to its first [await] and
    parks the rest until the network settles, which is how an [async]
    function behaves.  The state of the browser tab holds the cells of
    both components, the object URLs alive, the requests in flight and a
    log of every effect; events (user input, document load, a request
    that settles) are handled one at a time, each by the handler of the
    current render. *)

From Stdlib Require Import NArith List Ascii String Floats Lia
  DecimalString DecimalN.
From stdpp Require Import base gmap list.

Set Warnings "-register-all,-clear-no-such-hyp".

Local Open Scope N_scope.
Local Open Scope list_scope.

(* ===================================================================== *)
(** ** JavaScript strings *)
(* ===================================================================== *)

(** A JavaScript string is a sequence of UTF-16 code units. *)
Definition jsstring : Set := list N.

(** An ASCII literal of the source, one code unit per character. *)
Definition lit (s : String.string) : jsstring :=
  List.map N_of_ascii (list_ascii_of_string s).

Definition LF : jsstring := [10].
Definition DQUOTE : jsstring := [34].
(** U+2013, the dash of "5-7" and "3-4" in the overview prompt. *)
Definition EN_DASH : jsstring := [8211].

(** A template literal: its pieces, concatenated. *)
Definition template (pieces : list jsstring) : jsstring := List.concat pieces.

(** ECMAScript [WhiteSpace] and [LineTerminator] code points; all of them
    are single code units. *)
Definition is_ws (u : N) : bool :=
  ((9 <=? u) && (u <=? 13)) || (u =? 32) || (u =? 160) || (u =? 5760)
  || ((8192 <=? u) && (u <=? 8202)) || (u =? 8232) || (u =? 8233)
  || (u =? 8239) || (u =? 8287) || (u =? 12288) || (u =? 65279).

Fixpoint trimStart (s : jsstring) : jsstring :=
  match s with
  | [] => []
  | u :: r => if is_ws u then trimStart r else s
  end.

Definition trimEnd (s : jsstring) : jsstring :=
  List.rev (trimStart (List.rev s)).

(** [String.prototype.trim]. *)
Definition trim (s : jsstring) : jsstring := trimEnd (trimStart s).

(** Truthiness of a string, of a nullable string, of a nullable object. *)
Definition truthy (s : jsstring) : bool :=
  match s with [] => false | _ => true end.

Definition truthy_opt (o : option jsstring) : bool :=
  match o with Some s => truthy s | None => false end.

(** [String(n)] for a non-negative integer. *)
Definition number_to_string (n : N) : jsstring :=
  lit (NilEmpty.string_of_uint (N.to_uint n)).

(** [t] occurs in [s] as a contiguous run of code units. *)
Definition embeds (s t : jsstring) : Prop :=
  exists before after, s = before ++ t ++ after.

(* ===================================================================== *)
(** ** Data model *)
(* ===================================================================== *)

(** A JSON value ([any] in the source). *)
Inductive JsValue : Set :=
| JNull
| JBool (b : bool)
| JNum (x : float)
| JStr (s : jsstring)
| JArr (items : list JsValue)
| JObj (fields : list (jsstring * JsValue)).

Inductive JsError : Set :=
| Error (message : jsstring)          (* new Error(message) *)
| TypeError (message : jsstring)      (* fetch: network failure *)
| SyntaxError (message : jsstring).   (* Response.json(): body is not JSON *)

Inductive Role : Set := user | assistant.

Record ChatMessage : Set := { role : Role; content : jsstring }.

Record RAGResponse : Set := { answer : jsstring; chunks : list JsValue }.

Record HighlightRect : Set :=
  { top : float; left : float; width : float; height : float }.

Record File : Set := { name : jsstring; bytes : list N }.

(** The string [URL.createObjectURL] returns is a fresh, non-empty
    [blob:] URL; it is identified here by its serial number. *)
Record ObjectURL : Set := { serial : nat }.

#[global] Instance ObjectURL_eq_dec : EqDecision ObjectURL.
Proof. solve_decision. Defined.

#[global] Instance ObjectURL_countable : Countable ObjectURL.
Proof.
  refine (inj_countable' serial (fun n => {| serial := n |}) _).
  intros []; reflexivity.
Defined.

(* ===================================================================== *)
(** ** Programs over a signature of effects *)
(* ===================================================================== *)

(** [Prog E A]: a computation that performs effects of the signature [E]
    and returns an [A], or throws.  [Spawn p k] calls the asynchronous
    function [p] without awaiting its promise and goes on with [k]. *)
Inductive Prog (E : Type -> Type) (A : Type) : Type :=
| Ret (a : A)
| Throw (e : JsError)
| Vis {X : Type} (c : E X) (k : X -> Prog E A)
| Spawn (p : Prog E unit) (k : Prog E A).

Arguments Ret {E A} a.
Arguments Throw {E A} e.
Arguments Vis {E A X} c k.
Arguments Spawn {E A} p k.

Section ProgOps.
Context {E : Type -> Type}.

Definition trigger {X : Type} (c : E X) : Prog E X := Vis c Ret.

Fixpoint bind {A B : Type} (p : Prog E A) (f : A -> Prog E B) : Prog E B :=
  match p with
  | Ret a => f a
  | Throw e => Throw e
  | Vis c k => Vis c (fun x => bind (k x) f)
  | Spawn q k => Spawn q (bind k f)
  end.

(** [try { p } catch (err) { h err }] *)
Fixpoint try_catch {A : Type} (p : Prog E A) (h : JsError -> Prog E A) : Prog E A :=
  match p with
  | Ret a => Ret a
  | Throw e => h e
  | Vis c k => Vis c (fun x => try_catch (k x) h)
  | Spawn q k => Spawn q (try_catch k h)
  end.

(** [try { p } finally { f }] *)
Fixpoint try_finally {A : Type} (p : Prog E A) (f : Prog E unit) : Prog E A :=
  match p with
  | Ret a => bind f (fun _ => Ret a)
  | Throw e => bind f (fun _ => Throw e)
  | Vis c k => Vis c (fun x => try_finally (k x) f)
  | Spawn q k => Spawn q (try_finally k f)
  end.
End ProgOps.

Declare Scope prog_scope.
Delimit Scope prog_scope with prog.
Notation "x <- p ;; q" := (bind p (fun x => q))
  (at level 100, p at next level, right associativity) : prog_scope.
Notation "p ;; q" := (bind p (fun _ => q))
  (at level 100, right associativity) : prog_scope.
Local Open Scope prog_scope.

(* ===================================================================== *)
(** ** The backend client and the page controller ([src/page.tsx]) *)
(* ===================================================================== *)

(** The body of a request: the value handed to [JSON.stringify]. *)
Inductive RequestBody : Set := JSON_stringify (v : JsValue).

Record RequestInit : Set :=
  { method : jsstring;
    headers : list (jsstring * jsstring);
    body : RequestBody }.

(** What [fetch] resolves with.  [text] is what [resp.text()] yields;
    [json] is what [resp.json()] settles with: the parsed body, or the
    error it rejects with when the body is not JSON (the cast
    [as RAGResponse] is taken at its word: a body that parses has the
    declared shape). *)
Record Response : Set :=
  { status : N;
    text : jsstring;
    json : JsError + RAGResponse }.

(** [Response.ok]: the status is in the range 200-299. *)
Definition ok (resp : Response) : bool :=
  (200 <=? status resp) && (status resp <=? 299).

(** A settled [fetch]: rejected (network failure) or resolved. *)
Definition FetchSettled : Set := (JsError + Response)%type.

(** An argument of [console.log] / [console.error]. *)
Inductive LogArg : Set :=
| LStr (s : jsstring)
| LNum (n : N)
| LVal (v : JsValue)
| LErr (e : JsError).

(** The state cells of [HomePage]. *)
Record PageState : Set :=
  { overviewText : jsstring;
    overviewLoading : bool;
    overviewError : option jsstring;
    currentFileName : option jsstring;
    selectedText : option jsstring;
    highlightMessages : list ChatMessage;
    highlightInput : jsstring }.

(** The [useState] initial values. *)
Definition PageState_init : PageState :=
  {| overviewText := [];
     overviewLoading := false;
     overviewError := None;
     currentFileName := None;
     selectedText := None;
     highlightMessages := [];
     highlightInput := [] |}.

(** What the page does without waiting: its state setters, the console,
    the form event. *)
Inductive PageAction : Set :=
| SetOverviewText (v : jsstring)
| SetOverviewLoading (v : bool)
| SetOverviewError (v : option jsstring)
| SetCurrentFileName (v : option jsstring)
| SetSelectedText (v : option jsstring)
| SetHighlightMessages (v : list ChatMessage)
| UpdateHighlightMessages (f : list ChatMessage -> list ChatMessage)
| SetHighlightInput (v : jsstring)
| ConsoleLog (args : list LogArg)
| ConsoleError (args : list LogArg)
| PreventDefault.

(** The effects of the page: an action, or [fetch], the one operation
    that is awaited on the network. *)
Inductive PageE : Type -> Type :=
| Do (a : PageAction) : PageE unit
| Fetch (url : jsstring) (init : RequestInit) : PageE FetchSettled.

Definition setOverviewText v := trigger (Do (SetOverviewText v)).
Definition setOverviewLoading v := trigger (Do (SetOverviewLoading v)).
Definition setOverviewError v := trigger (Do (SetOverviewError v)).
Definition setCurrentFileName v := trigger (Do (SetCurrentFileName v)).
Definition setSelectedText v := trigger (Do (SetSelectedText v)).
(** [setHighlightMessages(value)] and [setHighlightMessages(prev => ...)]. *)
Definition setHighlightMessages v := trigger (Do (SetHighlightMessages v)).
Definition setHighlightMessages_fn f := trigger (Do (UpdateHighlightMessages f)).
Definition setHighlightInput v := trigger (Do (SetHighlightInput v)).
Definition console_log args := trigger (Do (ConsoleLog args)).
Definition console_error args := trigger (Do (ConsoleError args)).
Definition preventDefault := trigger (Do PreventDefault).

(** [await fetch(url, init)]: the promise resolves with a response or
    rejects. *)
Definition fetch (url : jsstring) (init : RequestInit) : Prog PageE Response :=
  Vis (Fetch url init)
      (fun settled =>
         match settled with
         | inl err => Throw err
         | inr resp => Ret resp
         end).

(** [await resp.text()] and [await resp.json()].  The body is taken as
    received with the response: what they settle with is read off the
    response, and no other event comes in between. *)
Definition resp_text (resp : Response) : Prog PageE jsstring :=
  Ret (text resp).

Definition resp_json (resp : Response) : Prog PageE RAGResponse :=
  match json resp with
  | inr parsed => Ret parsed
  | inl err => Throw err
  end.

(** Calling an [async] function as a statement, its promise dropped. *)
Definition async_call {E : Type -> Type} (p : Prog E unit) : Prog E unit := Spawn p (Ret tt).

(** [`${x}`] of a nullable string. *)
Definition String_of (o : option jsstring) : jsstring :=
  match o with Some s => s | None => lit "null" end.

Definition DEFAULT_BACKEND_URL : jsstring :=
  lit "https://fictional-guacamole-wr974jjpwp66h9wqw-8000.app.github.dev".

(** [BACKEND_URL], from the value of [process.env.NEXT_PUBLIC_BACKEND_URL]
    ([None] when [process] or the variable is undefined). *)
Definition BACKEND_URL (NEXT_PUBLIC_BACKEND_URL : option jsstring) : jsstring :=
  if truthy_opt NEXT_PUBLIC_BACKEND_URL
  then String_of NEXT_PUBLIC_BACKEND_URL
  else DEFAULT_BACKEND_URL.

Definition OVERVIEW_ERROR : jsstring :=
  lit "Sorry, I could not load the document overview from the server.".

Definition EXPLANATION_ERROR : jsstring :=
  lit "Sorry, I could not get an explanation from the server. Please try again later.".

Definition FOLLOWUP_ERROR : jsstring :=
  lit "Sorry, I could not get a follow-up answer from the server.".

Definition overview_question (fileName : jsstring) : jsstring :=
  trim (template
    [ LF;
      lit "The user has uploaded a U.S. health-insurance related PDF named ";
      DQUOTE; fileName; DQUOTE; lit "."; LF;
      LF;
      lit "Based on the retrieved chunks from this PDF and any closely related"; LF;
      lit "insurance information in the knowledge base, write a concise summary."; LF;
      LF;
      lit "In 5"; EN_DASH; lit "7 short sentences:"; LF;
      lit "1. Explain what kind of document this is and who typically provides it (for example, an employer, insurance company, or government agency)."; LF;
      lit "2. Describe the main purpose of this document for the person reading it."; LF;
      lit "3. Highlight 3"; EN_DASH; lit "4 key things the reader should pay attention to (such as who is covered, premium costs, deductibles/copays, important deadlines, and what to do if something looks wrong)."; LF;
      LF;
      lit "Use simple language. Bold important terms with **this style**."; LF ]).

Definition selection_question (text : jsstring) : jsstring :=
  trim (template
    [ LF;
      lit "You are explaining one short sentence from a U.S. health insurance form"; LF;
      lit "to a normal person with no insurance background."; LF;
      LF;
      lit "Highlighted text:"; LF;
      DQUOTE; text; DQUOTE; LF;
      LF;
      lit "In **no more than 3 short sentences**, explain:"; LF;
      lit "- What this part is saying in simple words,"; LF;
      lit "- What it means for the person reading or filling out the form,"; LF;
      lit "- If needed, mention **one** thing they should be careful about (such as deadlines or coverage limits)."; LF;
      LF;
      lit "Use clear language and bold important terms with **this style**."; LF ]).

Definition followup_question (selectedText : option jsstring)
    (trimmed : jsstring) : jsstring :=
  trim (template
    [ LF;
      lit "We are discussing this highlighted text from a U.S. health insurance form:"; LF;
      DQUOTE; String_of selectedText; DQUOTE; LF;
      LF;
      lit "The user now asks:"; LF;
      DQUOTE; trimmed; DQUOTE; LF;
      LF;
      lit "Answer in **no more than 3 short sentences**, focusing only on what the user really needs to know."; LF;
      lit "Use simple language and bold important terms with **this style**."; LF ]).

Section Page.
(** The value of [process.env.NEXT_PUBLIC_BACKEND_URL] at module load. *)
Variable env : option jsstring.

Definition callRAG (path : jsstring) (body : JsValue)
    : Prog PageE RAGResponse :=
  let url := template [BACKEND_URL env; path] in
  console_log [LStr (lit "Calling RAG backend:"); LStr url;
               LStr (LF ++ lit "body:"); LVal body] ;;
  resp <- fetch url
            {| method := lit "POST";
               headers := [(lit "Content-Type", lit "application/json")];
               body := JSON_stringify body |} ;;
  if negb (ok resp) then
    t <- resp_text resp ;;
    console_error [LStr (lit "RAG HTTP error:"); LNum (status resp); LStr t] ;;
    Throw (Error (template [lit "RAG request failed: ";
                            number_to_string (status resp)]))
  else
    resp_json resp.

Definition fetchOverviewForFile (fileName : jsstring) : Prog PageE unit :=
  setOverviewLoading true ;;
  setOverviewError None ;;
  setOverviewText [] ;;
  let question := overview_question fileName in
  try_finally
    (try_catch
       (res <- callRAG (lit "/api/rag/overview")
                 (JObj [(lit "question", JStr question);
                        (lit "file_name", JStr fileName)]) ;;
        setOverviewText (answer res))
       (fun err =>
          console_error [LErr err] ;;
          setOverviewError (Some OVERVIEW_ERROR)))
    (setOverviewLoading false).

Definition handleFileLoaded (fileName : jsstring) : Prog PageE unit :=
  setCurrentFileName (Some fileName) ;;
  setSelectedText None ;;
  setHighlightMessages [] ;;
  setHighlightInput [] ;;
  async_call (fetchOverviewForFile fileName).

Definition handleSelection (text : jsstring) : Prog PageE unit :=
  setSelectedText (Some text) ;;
  setHighlightMessages [] ;;
  setHighlightInput [] ;;
  let question := selection_question text in
  try_catch
    (res <- callRAG (lit "/api/rag/highlight")
              (JObj [(lit "question", JStr question)]) ;;
     setHighlightMessages [ {| role := assistant; content := answer res |} ])
    (fun err =>
       console_error [LErr err] ;;
       setHighlightMessages
         [ {| role := assistant; content := EXPLANATION_ERROR |} ]).

Definition handleClearSelection : Prog PageE unit :=
  setSelectedText None ;;
  setHighlightMessages [] ;;
  setHighlightInput [].

(** [render] holds the state values of the render whose closure the
    handler is: it reads [highlightInput] and [selectedText] there. *)
Definition handleHighlightSubmit (render : PageState) : Prog PageE unit :=
  preventDefault ;;
  let trimmed := trim (highlightInput render) in
  if negb (truthy trimmed) || negb (truthy_opt (selectedText render))
  then Ret tt
  else
    let userMsg := {| role := user; content := trimmed |} in
    setHighlightMessages_fn (fun prev => prev ++ [userMsg]) ;;
    setHighlightInput [] ;;
    let question := followup_question (selectedText render) trimmed in
    try_catch
      (res <- callRAG (lit "/api/rag/highlight")
                (JObj [(lit "question", JStr question)]) ;;
       let botMsg := {| role := assistant; content := answer res |} in
       setHighlightMessages_fn (fun prev => prev ++ [botMsg]))
      (fun err =>
         console_error [LErr err] ;;
         setHighlightMessages_fn
           (fun prev =>
              prev ++ [ {| role := assistant; content := FOLLOWUP_ERROR |} ])).

(** [onChange={(e) => setHighlightInput(e.target.value)}] *)
Definition handleInputChange (value : jsstring) : Prog PageE unit :=
  setHighlightInput value.
End Page.

(* ===================================================================== *)
(** ** The document viewer ([src/PDFInner.tsx]) *)
(* ===================================================================== *)

Module DOMRect.
Record t : Set :=
  { top : float; left : float; width : float; height : float }.
End DOMRect.

(** What [handleMouseUp] reads of [window.getSelection()]. *)
Record Selection : Set :=
  { isCollapsed : bool;
    toString : jsstring;
    (** [getRangeAt(0).getBoundingClientRect()] *)
    rangeRect : DOMRect.t }.

(** What the handlers read of [containerRef.current]. *)
Record Container : Set :=
  { getBoundingClientRect : DOMRect.t;
    scrollTop : float;
    scrollLeft : float }.

(** [e.target] of a pointer event on the viewer pane. *)
Inductive Target : Set :=
| TheContainer      (* the pane's own background *)
| RenderedContent.  (* a page, a text span, ... *)

(** The state cells of [PDFInner]. *)
Record ViewerState : Set :=
  { fileObj : option File;
    fileUrl : option ObjectURL;
    numPages : N;
    highlightRect : option HighlightRect }.

Definition ViewerState_init : ViewerState :=
  {| fileObj := None; fileUrl := None; numPages := 1; highlightRect := None |}.

(** What the viewer does besides minting an object URL: its state
    setters, revoking an object URL, the console, collapsing the browser
    selection, and calling its props. *)
Inductive ViewerAction : Set :=
| SetFileObj (v : option File)
| SetFileUrl (v : option ObjectURL)
| SetNumPages (v : N)
| SetHighlightRect (v : option HighlightRect)
| RevokeObjectURL (url : ObjectURL)
| ViewerConsoleError (args : list LogArg)
| RemoveAllRanges
| OnSelection (text : jsstring)
| OnClearSelection
| OnFileLoaded (fileName : jsstring).

Inductive ViewerE : Type -> Type :=
| Act (a : ViewerAction) : ViewerE unit
| CreateObjectURL (file : File) : ViewerE ObjectURL.

Definition setFileObj v := trigger (Act (SetFileObj v)).
Definition setFileUrl v := trigger (Act (SetFileUrl v)).
Definition setNumPages v := trigger (Act (SetNumPages v)).
Definition setHighlightRect v := trigger (Act (SetHighlightRect v)).
Definition URL_revokeObjectURL url := trigger (Act (RevokeObjectURL url)).
Definition URL_createObjectURL file := trigger (CreateObjectURL file).

(** The props of [PDFInner] (and of [PDFHighlighter]): what the parent
    runs when the viewer calls them; [onFileLoaded] is optional. *)
Record PDFInnerProps : Type :=
  { onSelection : jsstring -> Prog PageE unit;
    onClearSelection : Prog PageE unit;
    onFileLoaded : option (jsstring -> Prog PageE unit) }.

Section PDFInner.
Variable props : PDFInnerProps.

(** [render] holds the state values the closure of the handler sees. *)
Variable render : ViewerState.

(** The cleanup of [useEffect(..., [fileUrl])]. *)
Definition cleanup : Prog ViewerE unit :=
  match fileUrl render with
  | Some url => URL_revokeObjectURL url
  | None => Ret tt
  end.

(** [files] is [e.target.files]. *)
Definition handleFileChange (files : option (list File))
    : Prog ViewerE unit :=
  let file := match files with
              | Some l => List.nth_error l 0
              | None => None
              end in
  match file with
  | None => Ret tt
  | Some file =>
      setFileObj (Some file) ;;
      match fileUrl render with
      | Some url => URL_revokeObjectURL url
      | None => Ret tt
      end ;;
      url <- URL_createObjectURL file ;;
      setFileUrl (Some url) ;;
      setHighlightRect None ;;
      trigger (Act OnClearSelection) ;;
      match onFileLoaded props with
      | Some _ => trigger (Act (OnFileLoaded (name file)))
      | None => Ret tt
      end
  end.

Definition onDocumentLoadSuccess (numPages : N) : Prog ViewerE unit :=
  setNumPages numPages.

Definition onDocumentLoadError (error : JsError) : Prog ViewerE unit :=
  trigger (Act (ViewerConsoleError [LStr (lit "PDF load error:"); LErr error])).

(** [selection] is [window.getSelection()], [container] is
    [containerRef.current]. *)
Definition handleMouseUp (selection : option Selection)
    (container : option Container) : Prog ViewerE unit :=
  match selection with
  | None => Ret tt
  | Some selection =>
      if isCollapsed selection then Ret tt
      else
        let text := trim (toString selection) in
        if negb (truthy text) then Ret tt
        else
          let rect := rangeRect selection in
          match container with
          | None => Ret tt
          | Some container =>
              let containerRect := getBoundingClientRect container in
              let top := (DOMRect.top rect - DOMRect.top containerRect
                          + scrollTop container)%float in
              let left := (DOMRect.left rect - DOMRect.left containerRect
                           + scrollLeft container)%float in
              setHighlightRect
                (Some {| top := top;
                         left := left;
                         width := DOMRect.width rect;
                         height := DOMRect.height rect |}) ;;
              trigger (Act (OnSelection text))
          end
  end.

(** [target] is [e.target]; [selection] is [window.getSelection()]. *)
Definition handleMouseDown (target : Target)
    (container : option Container) (selection : option Selection)
    : Prog ViewerE unit :=
  match container with
  | None => Ret tt
  | Some _ =>
      match target with
      | TheContainer =>
          setHighlightRect None ;;
          trigger (Act OnClearSelection) ;;
          match selection with
          | Some _ => trigger (Act RemoveAllRanges)
          | None => Ret tt
          end
      | RenderedContent => Ret tt
      end
  end.
End PDFInner.

(** [PDFHighlighter] hands its props to the lazily loaded [PDFInner]. *)
Definition PDFHighlighter (props : PDFInnerProps) : PDFInnerProps := props.

(** The props [HomePage] passes to [PDFHighlighter]. *)
Definition HomePage_props (env : option jsstring) : PDFInnerProps :=
  {| onSelection := fun text => async_call (handleSelection env text);
     onClearSelection := handleClearSelection;
     onFileLoaded := Some (handleFileLoaded env) |}.

(* ===================================================================== *)
(** ** The browser tab: state, effects, events *)
(* ===================================================================== *)

(** One entry of the effect log. *)
Inductive Obs : Type :=
| PageDid (a : PageAction)
| ViewerDid (a : ViewerAction)
| Created (url : ObjectURL) (file : File)    (* URL.createObjectURL *)
| Requested (id : nat) (url : jsstring) (init : RequestInit)  (* fetch *)
| Uncaught (e : JsError).

(** How a run up to the next [await] ends. *)
Inductive Result (A : Type) : Type :=
| Finished (a : A)
| Thrown (e : JsError)
| Parked (id : nat) (k : FetchSettled -> Prog PageE A).

Arguments Finished {A} a.
Arguments Thrown {A} e.
Arguments Parked {A} id k.

Record World : Type :=
  { page : PageState;
    viewer : ViewerState;
    (** the object URLs created and not revoked *)
    live : gset ObjectURL;
    nextUrl : nat;
    (** the requests in flight, each with the rest of the [async]
        function that awaits it *)
    pending : gmap nat (FetchSettled -> Prog PageE unit);
    nextRequest : nat;
    (** every effect so far, the latest first *)
    trace : list Obs }.

(** The tab when the page has mounted: the [useState] initial values,
    nothing alive, nothing in flight, an empty log (the [console.log] of
    [BACKEND_URL] at module load comes before). *)
Definition World_init : World :=
  {| page := PageState_init;
     viewer := ViewerState_init;
     live := ∅;
     nextUrl := 0;
     pending := ∅;
     nextRequest := 0;
     trace := [] |}.

Definition with_page (f : PageState -> PageState) (w : World) : World :=
  {| page := f (page w); viewer := viewer w; live := live w;
     nextUrl := nextUrl w; pending := pending w;
     nextRequest := nextRequest w; trace := trace w |}.

Definition with_viewer (f : ViewerState -> ViewerState) (w : World) : World :=
  {| page := page w; viewer := f (viewer w); live := live w;
     nextUrl := nextUrl w; pending := pending w;
     nextRequest := nextRequest w; trace := trace w |}.

Definition with_live (f : gset ObjectURL -> gset ObjectURL) (w : World)
    : World :=
  {| page := page w; viewer := viewer w; live := f (live w);
     nextUrl := nextUrl w; pending := pending w;
     nextRequest := nextRequest w; trace := trace w |}.

Definition with_pending
    (f : gmap nat (FetchSettled -> Prog PageE unit)
         -> gmap nat (FetchSettled -> Prog PageE unit))
    (w : World) : World :=
  {| page := page w; viewer := viewer w; live := live w;
     nextUrl := nextUrl w; pending := f (pending w);
     nextRequest := nextRequest w; trace := trace w |}.

Definition log (o : Obs) (w : World) : World :=
  {| page := page w; viewer := viewer w; live := live w;
     nextUrl := nextUrl w; pending := pending w;
     nextRequest := nextRequest w; trace := o :: trace w |}.

(** A state setter takes effect on its cell. *)
Definition page_apply (a : PageAction) (s : PageState) : PageState :=
  match a with
  | SetOverviewText v =>
      {| overviewText := v; overviewLoading := overviewLoading s;
         overviewError := overviewError s;
         currentFileName := currentFileName s;
         selectedText := selectedText s;
         highlightMessages := highlightMessages s;
         highlightInput := highlightInput s |}
  | SetOverviewLoading v =>
      {| overviewText := overviewText s; overviewLoading := v;
         overviewError := overviewError s;
         currentFileName := currentFileName s;
         selectedText := selectedText s;
         highlightMessages := highlightMessages s;
         highlightInput := highlightInput s |}
  | SetOverviewError v =>
      {| overviewText := overviewText s;
         overviewLoading := overviewLoading s;
         overviewError := v;
         currentFileName := currentFileName s;
         selectedText := selectedText s;
         highlightMessages := highlightMessages s;
         highlightInput := highlightInput s |}
  | SetCurrentFileName v =>
      {| overviewText := overviewText s;
         overviewLoading := overviewLoading s;
         overviewError := overviewError s;
         currentFileName := v;
         selectedText := selectedText s;
         highlightMessages := highlightMessages s;
         highlightInput := highlightInput s |}
  | SetSelectedText v =>
      {| overviewText := overviewText s;
         overviewLoading := overviewLoading s;
         overviewError := overviewError s;
         currentFileName := currentFileName s;
         selectedText := v;
         highlightMessages := highlightMessages s;
         highlightInput := highlightInput s |}
  | SetHighlightMessages v =>
      {| overviewText := overviewText s;
         overviewLoading := overviewLoading s;
         overviewError := overviewError s;
         currentFileName := currentFileName s;
         selectedText := selectedText s;
         highlightMessages := v;
         highlightInput := highlightInput s |}
  | UpdateHighlightMessages f =>
      {| overviewText := overviewText s;
         overviewLoading := overviewLoading s;
         overviewError := overviewError s;
         currentFileName := currentFileName s;
         selectedText := selectedText s;
         highlightMessages := f (highlightMessages s);
         highlightInput := highlightInput s |}
  | SetHighlightInput v =>
      {| overviewText := overviewText s;
         overviewLoading := overviewLoading s;
         overviewError := overviewError s;
         currentFileName := currentFileName s;
         selectedText := selectedText s;
         highlightMessages := highlightMessages s;
         highlightInput := v |}
  | ConsoleLog _ | ConsoleError _ | PreventDefault => s
  end.

Definition viewer_apply (a : ViewerAction) (s : ViewerState) : ViewerState :=
  match a with
  | SetFileObj v =>
      {| fileObj := v; fileUrl := fileUrl s; numPages := numPages s;
         highlightRect := highlightRect s |}
  | SetFileUrl v =>
      {| fileObj := fileObj s; fileUrl := v; numPages := numPages s;
         highlightRect := highlightRect s |}
  | SetNumPages v =>
      {| fileObj := fileObj s; fileUrl := fileUrl s; numPages := v;
         highlightRect := highlightRect s |}
  | SetHighlightRect v =>
      {| fileObj := fileObj s; fileUrl := fileUrl s; numPages := numPages s;
         highlightRect := v |}
  | _ => s
  end.

(** Revoking removes the URL from the live ones (a URL that is not live
    is left alone). *)
Definition live_apply (a : ViewerAction) (l : gset ObjectURL)
    : gset ObjectURL :=
  match a with
  | RevokeObjectURL url => l ∖ {[ url ]}
  | _ => l
  end.

Definition page_do (a : PageAction) (w : World) : World :=
  log (PageDid a) (with_page (page_apply a) w).

Definition viewer_do (a : ViewerAction) (w : World) : World :=
  log (ViewerDid a) (with_live (live_apply a) (with_viewer (viewer_apply a) w)).

(** [fetch]: the request leaves, under the next request number. *)
Definition issue (url : jsstring) (init : RequestInit) (w : World) : World :=
  let w1 := log (Requested (nextRequest w) url init) w in
  {| page := page w1; viewer := viewer w1; live := live w1;
     nextUrl := nextUrl w1; pending := pending w1;
     nextRequest := S (nextRequest w1); trace := trace w1 |}.

(** [URL.createObjectURL]: a URL that was never handed out before. *)
Definition fresh_url (w : World) : ObjectURL := {| serial := nextUrl w |}.

Definition mint (file : File) (w : World) : World :=
  let w1 := log (Created (fresh_url w) file) w in
  {| page := page w1; viewer := viewer w1;
     live := {[ fresh_url w ]} ∪ live w1;
     nextUrl := S (nextUrl w1); pending := pending w1;
     nextRequest := nextRequest w1; trace := trace w1 |}.

(** What becomes of an [async] call nobody awaits: parked with its
    request, or done; a rejection has no handler. *)
Definition detach (r : Result unit) (w : World) : World :=
  match r with
  | Finished _ => w
  | Thrown e => log (Uncaught e) w
  | Parked id k => with_pending (fun m => <[ id := k ]> m) w
  end.

(** Run a program of the page until it returns, throws, or awaits. *)
Fixpoint exec_page {A : Type} (p : Prog PageE A) (w : World) : World * Result A :=
  match p with
  | Ret a => (w, Finished a)
  | Throw e => (w, Thrown e)
  | Spawn q k =>
      let '(w1, r) := exec_page q w in
      exec_page k (detach r w1)
  | Vis c k =>
      match c in PageE X return (X -> Prog PageE A) -> World * Result A with
      | Do a => fun k => exec_page (k tt) (page_do a w)
      | Fetch url init => fun k => (issue url init w, Parked (nextRequest w) k)
      end k
  end.

(** An event handler of the page, or the rest of one, run as a task. *)
Definition run_page (p : Prog PageE unit) (w : World) : World :=
  let '(w1, r) := exec_page p w in detach r w1.

(** The parent's function behind a call of a prop. *)
Definition prop_call (props : PDFInnerProps) (a : ViewerAction)
    : option (Prog PageE unit) :=
  match a with
  | OnSelection text => Some (onSelection props text)
  | OnClearSelection => Some (onClearSelection props)
  | OnFileLoaded fileName =>
      match onFileLoaded props with
      | Some f => Some (f fileName)
      | None => None
      end
  | _ => None
  end.

(** Run a handler of the viewer; it awaits nothing.  A call of a prop
    runs the parent's function on the spot. *)
Fixpoint exec_viewer {A : Type} (props : PDFInnerProps) (p : Prog ViewerE A)
    (w : World) : World * (JsError + A) :=
  match p with
  | Ret a => (w, inr a)
  | Throw e => (w, inl e)
  | Spawn q k =>
      let '(w1, r) := exec_viewer props q w in
      exec_viewer props k
        (match r with inl e => log (Uncaught e) w1 | inr _ => w1 end)
  | Vis c k =>
      match c in ViewerE X
            return (X -> Prog ViewerE A) -> World * (JsError + A) with
      | Act a => fun k =>
          let w1 := viewer_do a w in
          match prop_call props a with
          | None => exec_viewer props (k tt) w1
          | Some callee =>
              let '(w2, r) := exec_page callee w1 in
              match r with
              | Thrown e => (w2, inl e)
              | _ => exec_viewer props (k tt) (detach r w2)
              end
          end
      | CreateObjectURL file => fun k =>
          exec_viewer props (k (fresh_url w)) (mint file w)
      end k
  end.

Definition run_viewer (props : PDFInnerProps) (p : Prog ViewerE unit)
    (w : World) : World :=
  let '(w1, r) := exec_viewer props p w in
  match r with inl e => log (Uncaught e) w1 | inr _ => w1 end.

(** What can happen to the mounted page. *)
Inductive Event : Type :=
(** [onChange] of the file input, with [e.target.files] *)
| FileChange (files : option (list File))
(** [onMouseUp] of the viewer pane, with [window.getSelection()] and
    [containerRef.current] *)
| MouseUp (selection : option Selection) (container : option Container)
(** [onMouseDown] of the viewer pane, with [e.target] *)
| MouseDown (target : Target) (container : option Container)
    (selection : option Selection)
(** [onLoadSuccess] and [onLoadError] of [Document] *)
| DocumentLoadSuccess (numPages : N)
| DocumentLoadError (error : JsError)
(** [onChange] of the follow-up input, with [e.target.value] *)
| InputChange (value : jsstring)
(** [onSubmit] of the follow-up form *)
| Submit
(** the request [id] settles *)
| Settle (id : nat) (settled : FetchSettled).

Section App.
Variable env : option jsstring.

Definition props : PDFInnerProps := PDFHighlighter (HomePage_props env).

(** The handler of an event, with the closure of the current render.
    [Document] is rendered only when [fileUrl] is set, the follow-up
    form only when [selectedText] is truthy; a request settles only
    while it is in flight. *)
Definition handle (ev : Event) (w : World) : World :=
  match ev with
  | FileChange files =>
      run_viewer props (handleFileChange props (viewer w) files) w
  | MouseUp selection container =>
      run_viewer props (handleMouseUp selection container) w
  | MouseDown target container selection =>
      run_viewer props (handleMouseDown target container selection) w
  | DocumentLoadSuccess n =>
      match fileUrl (viewer w) with
      | Some _ => run_viewer props (onDocumentLoadSuccess n) w
      | None => w
      end
  | DocumentLoadError error =>
      match fileUrl (viewer w) with
      | Some _ => run_viewer props (onDocumentLoadError error) w
      | None => w
      end
  | InputChange value =>
      if truthy_opt (selectedText (page w))
      then run_page (handleInputChange value) w
      else w
  | Submit =>
      if truthy_opt (selectedText (page w))
      then run_page (handleHighlightSubmit env (page w)) w
      else w
  | Settle id settled =>
      match pending w !! id with
      | Some k => run_page (k settled) (with_pending (delete id) w)
      | None => w
      end
  end.

(** After the handler React renders again; when [fileUrl] changed, the
    cleanup of the effect of the previous render runs. *)
Definition commit (before : ViewerState) (w : World) : World :=
  if decide (fileUrl (viewer w) = fileUrl before) then w
  else run_viewer props (cleanup before) w.

Definition step (w : World) (ev : Event) : World :=
  commit (viewer w) (handle ev w).

Definition run (evs : list Event) (w : World) : World :=
  List.fold_left step evs w.

(** Unmounting runs the cleanup of the last render. *)
Definition unmount (w : World) : World :=
  run_viewer props (cleanup (viewer w)) w.

Definition reachable (w : World) : Prop :=
  exists evs, run evs World_init = w.
End App.

(* ===================================================================== *)
(** ** Notions the statements and the proofs use *)
(* ===================================================================== *)

(** The reply of the backend as a caller of [callRAG] sees it: the parsed
    body of a response with a successful status, if there is one. *)
Definition backend_reply (settled : FetchSettled) : option RAGResponse :=
  match settled with
  | inl _ => None
  | inr resp =>
      if ok resp then
        match json resp with
        | inr parsed => Some parsed
        | inl _ => None
        end
      else None
  end.

(** The object URLs alive after the effects of a log (the latest effect
    is at the head). *)
Fixpoint alive (tr : list Obs) : gset ObjectURL :=
  match tr with
  | [] => ∅
  | Created url _ :: earlier => {[ url ]} ∪ alive earlier
  | ViewerDid (RevokeObjectURL url) :: earlier => alive earlier ∖ {[ url ]}
  | _ :: earlier => alive earlier
  end.

(** A run of page actions, the first of the list first. *)
Definition page_acts (acts : list PageAction) (w : World) : World :=
  List.fold_left (fun w a => page_do a w) acts w.

(** What [callRAG] does once its request has settled: what it logs ... *)
Definition callRAG_log (settled : FetchSettled) : list PageAction :=
  match settled with
  | inl _ => []
  | inr resp =>
      if ok resp then []
      else [ConsoleError [LStr (lit "RAG HTTP error:"); LNum (status resp);
                          LStr (text resp)]]
  end.

(** ... and what it returns or throws. *)
Definition callRAG_result (settled : FetchSettled) : JsError + RAGResponse :=
  match settled with
  | inl e => inl e
  | inr resp =>
      if ok resp then
        json resp
      else inl (Error (template [lit "RAG request failed: ";
                                  number_to_string (status resp)]))
  end.

Definition result_of {A : Type} (r : JsError + A) : Result A :=
  match r with inl e => Thrown e | inr a => Finished a end.

(** The request [callRAG] sends, after logging it. *)
Definition callRAG_init (body : JsValue) : RequestInit :=
  {| method := lit "POST";
     headers := [(lit "Content-Type", lit "application/json")];
     body := JSON_stringify body |}.

Definition callRAG_request (env : option jsstring) (path : jsstring)
    (body : JsValue) (w : World) : World :=
  issue (template [BACKEND_URL env; path]) (callRAG_init body)
    (page_do (ConsoleLog [LStr (lit "Calling RAG backend:");
                          LStr (template [BACKEND_URL env; path]);
                          LStr (LF ++ lit "body:"); LVal body]) w).

(** What the three callers of [callRAG] do once the request has settled. *)
Definition overview_reply (settled : FetchSettled) : list PageAction :=
  callRAG_log settled
  ++ match callRAG_result settled with
     | inr res => [SetOverviewText (answer res)]
     | inl err => [ConsoleError [LErr err];
                   SetOverviewError (Some OVERVIEW_ERROR)]
     end
  ++ [SetOverviewLoading false].

Definition selection_reply (settled : FetchSettled) : list PageAction :=
  callRAG_log settled
  ++ match callRAG_result settled with
     | inr res =>
         [SetHighlightMessages
            [ {| role := assistant; content := answer res |} ]]
     | inl err =>
         [ConsoleError [LErr err];
          SetHighlightMessages
            [ {| role := assistant; content := EXPLANATION_ERROR |} ]]
     end.

Definition followup_reply (settled : FetchSettled) : list PageAction :=
  callRAG_log settled
  ++ match callRAG_result settled with
     | inr res =>
         [UpdateHighlightMessages
            (fun prev =>
               prev ++ [ {| role := assistant; content := answer res |} ])]
     | inl err =>
         [ConsoleError [LErr err];
          UpdateHighlightMessages
            (fun prev =>
               prev ++ [ {| role := assistant; content := FOLLOWUP_ERROR |} ])]
     end.

(** The assistant message a follow-up gets. *)
Definition followup_answer (settled : FetchSettled) : ChatMessage :=
  {| role := assistant;
     content := match backend_reply settled with
                | Some res => answer res
                | None => FOLLOWUP_ERROR
                end |}.

(** The actions that touch only the overview cells, the conversation and
    the console. *)
Definition reply_action (a : PageAction) : bool :=
  match a with
  | SetOverviewText _ | SetOverviewLoading _ | SetOverviewError _
  | SetHighlightMessages _ | UpdateHighlightMessages _
  | ConsoleLog _ | ConsoleError _ => true
  | _ => false
  end.

(** The rest of an [async] handler that, whatever the network answers,
    only performs such actions (and sends nothing more). *)
Definition settles_on_page (k : FetchSettled -> Prog PageE unit) : Prop :=
  forall settled w,
    exists acts, run_page (k settled) w = page_acts acts w
                 /\ List.forallb reply_action acts = true.

(** Revoking the object URL a cell holds, if it holds one. *)
Definition revoke_opt (o : option ObjectURL) (w : World) : World :=
  match o with
  | Some url => viewer_do (RevokeObjectURL url) w
  | None => w
  end.

(** The first file of the picker: [e.target.files?.[0] ?? null]. *)
Definition first_file (files : option (list File)) : option File :=
  match files with
  | Some l => List.nth_error l 0
  | None => None
  end.

(** The rectangle [handleMouseUp] computes. *)
Definition selection_rect (selection : Selection) (container : Container)
    : HighlightRect :=
  {| top := (DOMRect.top (rangeRect selection)
             - DOMRect.top (getBoundingClientRect container)
             + scrollTop container)%float;
     left := (DOMRect.left (rangeRect selection)
              - DOMRect.left (getBoundingClientRect container)
              + scrollLeft container)%float;
     width := DOMRect.width (rangeRect selection);
     height := DOMRect.height (rangeRect selection) |}.

(** An action of the viewer that is no object-URL call and does not set
    [fileUrl]. *)
Definition plain_action (a : ViewerAction) : bool :=
  match a with
  | SetFileUrl _ | RevokeObjectURL _ => false
  | _ => true
  end.

(** Run a program through its [await]: up to the request, then on with
    what the network answers. *)
Definition await_with {A : Type} (settled : FetchSettled)
    (p : Prog PageE A) (w : World) : World * Result A :=
  match exec_page p w with
  | (w1, Parked _ k) => exec_page (k settled) w1
  | done => done
  end.

(** The assistant message [handleSelection] leaves once its request has
    settled. *)
Definition explanation (settled : FetchSettled) : ChatMessage :=
  {| role := assistant;
     content := match backend_reply settled with
                | Some res => answer res
                | None => EXPLANATION_ERROR
                end |}.

(** At every moment of the log at most one object URL is alive, and each
    one was created when none was. *)
Fixpoint managed (tr : list Obs) : Prop :=
  match tr with
  | [] => True
  | o :: earlier =>
      managed earlier
      /\ (size (alive (o :: earlier)) <= 1)%nat
      /\ match o with
         | Created _ _ => alive earlier = ∅
         | _ => True
         end
  end.

(** The object URL a render holds, as a set. *)
Definition held (s : ViewerState) : gset ObjectURL :=
  match fileUrl s with
  | Some url => {[ url ]}
  | None => ∅
  end.

(** What holds of the tab after any number of events. *)
Record Inv (w : World) : Prop :=
  { inv_pending :
      forall id k, pending w !! id = Some k ->
                   settles_on_page k /\ (id < nextRequest w)%nat;
    inv_selected : selectedText (page w) <> Some [];
    inv_alive : alive (trace w) = live w;
    inv_held : live w ⊆ held (viewer w);
    inv_managed : managed (trace w) }.

(** A string whose first code unit is not white space. *)
Definition starts_solid (s : jsstring) : bool :=
  match s with
  | u :: _ => negb (is_ws u)
  | [] => false
  end.

Definition ends_solid (s : jsstring) : bool := starts_solid (List.rev s).

Definition blank (s : jsstring) : bool := List.forallb is_ws s.



Definition followup_head : jsstring :=
  template
    [ lit "We are discussing this highlighted text from a U.S. health insurance form:"; LF;
      DQUOTE ].

Definition followup_middle : jsstring :=
  template
    [ DQUOTE; LF;
      LF;
      lit "The user now asks:"; LF;
      DQUOTE ].

Definition followup_tail : jsstring :=
  template
    [ DQUOTE; LF;
      LF;
      lit "Answer in **no more than 3 short sentences**, focusing only on what the user really needs to know."; LF;
      lit "Use simple language and bold important terms with **this style**." ].

(** Sample inputs: a file, a selection over a pane scrolled by 200
    pixels, a blank selection, a network failure, and the tab after an
    upload, a selection and some typing. *)
Definition sample_file : File :=
  {| name := lit "policy.pdf"; bytes := [37; 80; 68; 70] |}.

Definition sample_selection : Selection :=
  {| isCollapsed := false;
     toString := lit " Coinsurance: 20% after deductible ";
     rangeRect := {| DOMRect.top := 120; DOMRect.left := 40;
                     DOMRect.width := 300; DOMRect.height := 18 |} |}.

Definition sample_container : Container :=
  {| getBoundingClientRect := {| DOMRect.top := 80; DOMRect.left := 24;
                                 DOMRect.width := 720;
                                 DOMRect.height := 900 |};
     scrollTop := 200;
     scrollLeft := 0 |}.

Definition blank_selection : Selection :=
  {| isCollapsed := false;
     toString := lit "   ";
     rangeRect := {| DOMRect.top := 120; DOMRect.left := 40;
                     DOMRect.width := 12; DOMRect.height := 18 |} |}.

Definition summary_reply : FetchSettled :=
  inr {| status := 200;
         text := [];
         json := inr {| answer := lit "This is a Summary of Benefits...";
                        chunks := [] |} |}.

Definition server_error : FetchSettled :=
  inr {| status := 500;
         text := lit "Internal Server Error";
         json := inl (SyntaxError (lit "Unexpected token I in JSON")) |}.

Definition network_failure : FetchSettled :=
  inl (TypeError (lit "Failed to fetch")).

Definition sample_selected : World :=
  run None [FileChange (Some [sample_file]);
            MouseUp (Some sample_selection) (Some sample_container)]
    World_init.

Definition sample_question : jsstring := lit "  Is that per year?  ".

Definition sample_typed : World :=
  run None [FileChange (Some [sample_file]);
            MouseUp (Some sample_selection) (Some sample_container);
            InputChange sample_question]
    World_init.

Definition sample_blank_typed : World :=
  run None [FileChange (Some [sample_file]);
            MouseUp (Some sample_selection) (Some sample_container);
            InputChange (lit "   ")]
    World_init.


(* ===================================================================== *)
(** ** What the components render *)
(* ===================================================================== *)

(** [{cond && <X />}]: the element when the condition is truthy, nothing
    otherwise (a falsy string or boolean renders nothing). *)
Definition show {A : Type} (cond : bool) (x : A) : list A :=
  if cond then [x] else [].

(** The blocks of the overview pane of [HomePage]. *)
Inductive OverviewBlock : Set :=
| UploadHint                              (* "Upload an insurance PDF ..." *)
| Generating (fileName : jsstring)        (* "Generating a short overview ..." *)
| OverviewFailed (message : jsstring)     (* the red error text *)
| OverviewMarkdown (markdown : jsstring). (* <ReactMarkdown> of the text *)

Definition overview_pane (s : PageState) : list OverviewBlock :=
  show (negb (truthy_opt (currentFileName s))) UploadHint
  ++ show (truthy_opt (currentFileName s) && overviewLoading s)
       (Generating (String_of (currentFileName s)))
  ++ show (truthy_opt (currentFileName s) && negb (overviewLoading s)
           && truthy_opt (overviewError s))
       (OverviewFailed (String_of (overviewError s)))
  ++ show (truthy_opt (currentFileName s) && negb (overviewLoading s)
           && negb (truthy_opt (overviewError s))
           && truthy (overviewText s))
       (OverviewMarkdown (overviewText s)).

Inductive Align : Set := AlignLeft | AlignRight.

(** One message of the conversation, as rendered. *)
Module MessageBubble.
Record t : Set :=
  { key : nat;
    textAlign : Align;
    backgroundColor : jsstring;
    color : jsstring;
    markdown : jsstring }.
End MessageBubble.

(** The body of [highlightMessages.map((msg, idx) => ...)]. *)
Definition bubble (idx : nat) (msg : ChatMessage) : MessageBubble.t :=
  {| MessageBubble.key := idx;
     MessageBubble.textAlign :=
       match role msg with user => AlignRight | assistant => AlignLeft end;
     MessageBubble.backgroundColor :=
       match role msg with
       | user => lit "#2563eb"
       | assistant => lit "#e5e7eb"
       end;
     MessageBubble.color :=
       match role msg with
       | user => lit "#f9fafb"
       | assistant => lit "#111827"
       end;
     MessageBubble.markdown := content msg |}.

(** The blocks of the highlight pane: the hint, or the selected text with
    the conversation and the follow-up form (the value of its input). *)
Inductive HighlightBlock : Set :=
| HighlightHint
| Conversation (selected : jsstring) (bubbles : list MessageBubble.t)
    (inputValue : jsstring).

Definition highlight_pane (s : PageState) : list HighlightBlock :=
  show (negb (truthy_opt (selectedText s))) HighlightHint
  ++ show (truthy_opt (selectedText s))
       (Conversation (String_of (selectedText s))
          (imap bubble (highlightMessages s))
          (highlightInput s)).

(** The props of one [Page] of the document. *)
Module PageProps.
Record t : Set :=
  { key : jsstring;
    pageNumber : N;
    width : N;
    renderAnnotationLayer : bool;
    renderTextLayer : bool }.
End PageProps.

(** [Array.from({ length: numPages }).map((_, index) => <Page ... />)] *)
Definition pages (numPages : N) : list PageProps.t :=
  List.map
    (fun index =>
       {| PageProps.key := template [lit "page_"; number_to_string (index + 1)];
          PageProps.pageNumber := index + 1;
          PageProps.width := 700;
          PageProps.renderAnnotationLayer := false;
          PageProps.renderTextLayer := true |})
    (List.map N.of_nat (List.seq 0 (N.to_nat numPages))).

(** The pane of [PDFInner]: the prompt to upload, or the document with
    its pages and, over them, the highlight rectangle if there is one. *)
Inductive ViewerBody : Set :=
| UploadPrompt
| DocumentView (file : ObjectURL) (pageList : list PageProps.t)
    (overlay : option HighlightRect).

(** What [PDFInner] renders: the name beside the upload button, and the
    pane. *)
Record ViewerView : Set :=
  { fileLabel : option jsstring;
    pane : ViewerBody }.

Definition PDFInner_render (s : ViewerState) : ViewerView :=
  {| fileLabel := match fileObj s with
                  | Some file => Some (name file)
                  | None => None
                  end;
     pane := match fileUrl s with
             | Some url =>
                 DocumentView url (pages (numPages s)) (highlightRect s)
             | None => UploadPrompt
             end |}.

(* ===================================================================== *)
(** ** Notions of the further properties *)
(* ===================================================================== *)

(** The three callers of [callRAG], by what they do with the reply. *)
Inductive ReplyKind : Set := OverviewReply | SelectionReply | FollowupReply.

Definition reply (kind : ReplyKind) (settled : FetchSettled)
    : list PageAction :=
  match kind with
  | OverviewReply => overview_reply settled
  | SelectionReply => selection_reply settled
  | FollowupReply => followup_reply settled
  end.

(** [k] is the rest of a handler of that kind. *)
Definition replies_as (kind : ReplyKind)
    (k : FetchSettled -> Prog PageE unit) : Prop :=
  forall settled w, run_page (k settled) w = page_acts (reply kind settled) w.

(** A request as [callRAG] sends them for the page: a POST of JSON to one
    of the two endpoints of the backend, with the question (and the file
    name, for the overview). *)
Definition rag_request (env : option jsstring) (url : jsstring)
    (init : RequestInit) : Prop :=
  method init = lit "POST"
  /\ headers init = [(lit "Content-Type", lit "application/json")]
  /\ ((url = template [BACKEND_URL env; lit "/api/rag/overview"]
       /\ exists question fileName,
            body init
            = JSON_stringify
                (JObj [(lit "question", JStr question);
                       (lit "file_name", JStr fileName)]))
      \/ (url = template [BACKEND_URL env; lit "/api/rag/highlight"]
          /\ exists question,
               body init
               = JSON_stringify (JObj [(lit "question", JStr question)]))).

Definition request_ok (env : option jsstring) (o : Obs) : Prop :=
  match o with
  | Requested _ url init => rag_request env url init
  | _ => True
  end.

(** A log entry that is not an error left uncaught. *)
Definition caught (o : Obs) : Prop :=
  match o with
  | Uncaught _ => False
  | _ => True
  end.

(** A message of the user is a trimmed, non-empty text. *)
Definition user_ok (m : ChatMessage) : Prop :=
  match role m with
  | user => content m <> [] /\ trim (content m) = content m
  | assistant => True
  end.

(** What holds of the tab after any number of events, beyond [Inv]. *)
Record Sound (env : option jsstring) (w : World) : Prop :=
  { sound_pending :
      forall id k, pending w !! id = Some k ->
                   (exists kind, replies_as kind k)
                   /\ (id < nextRequest w)%nat;
    sound_requests : Forall (request_ok env) (trace w);
    sound_caught : Forall caught (trace w);
    sound_sync :
      highlightRect (viewer w) = None <-> selectedText (page w) = None;
    sound_trimmed :
      forall t, selectedText (page w) = Some t -> t <> [] /\ trim t = t;
    sound_file :
      fileObj (viewer w) = None <-> fileUrl (viewer w) = None;
    sound_name :
      currentFileName (page w)
      = match fileObj (viewer w) with
        | Some file => Some (name file)
        | None => None
        end;
    sound_live : live w = held (viewer w);
    sound_fresh :
      forall url, fileUrl (viewer w) = Some url -> (serial url < nextUrl w)%nat;
    sound_user : Forall user_ok (highlightMessages (page w));
    sound_loading :
      overviewLoading (page w) = true ->
      exists id k, pending w !! id = Some k /\ replies_as OverviewReply k }.

(** The events of the page proper, and those of the document. *)
Definition page_event (ev : Event) : bool :=
  match ev with
  | InputChange _ | Submit | Settle _ _ => true
  | _ => false
  end.

Definition document_event (ev : Event) : bool :=
  match ev with
  | DocumentLoadSuccess _ | DocumentLoadError _ => true
  | _ => false
  end.

(** Whether an event settles the request [id]. *)
Definition settles (id : nat) (ev : Event) : bool :=
  match ev with
  | Settle id' _ => Nat.eqb id' id
  | _ => false
  end.

(** Events of the highlight flow: the pointer over the pane, and the
    follow-up form. *)
Definition highlight_event (ev : Event) : bool :=
  match ev with
  | MouseUp _ _ | MouseDown _ _ _ | InputChange _ | Submit => true
  | _ => false
  end.

(** Further sample inputs: a second selection, and a reply of the backend
    with an empty answer. *)
Definition other_selection : Selection :=
  {| isCollapsed := false;
     toString := lit "Out-of-pocket limit";
     rangeRect := {| DOMRect.top := 310; DOMRect.left := 40;
                     DOMRect.width := 160; DOMRect.height := 18 |} |}.

Definition empty_answer : FetchSettled :=
  inr {| status := 200;
         text := [];
         json := inr {| answer := []; chunks := [] |} |}.

(** A second sample file. *)
Definition other_file : File :=
  {| name := lit "dental.pdf"; bytes := [37; 80; 68; 70; 45] |}.

(* ===================================================================== *)
(** ** Tactics *)
(* ===================================================================== *)

(** Run a handler symbolically, keeping the strings folded. *)
Ltac exec_simpl :=
  cbn -[lit trim template selection_question overview_question
        followup_question BACKEND_URL insert delete lookup
        number_to_string].

(** The cases of a settled request: rejected, or resolved with a status
    in 200-299 (the body parsed or not) or outside. *)
Ltac settle_cases settled :=
  let e := fresh "e" in
  let resp := fresh "resp" in
  destruct settled as [e|resp]; unfold run_page; exec_simpl;
  [ reflexivity
  | unfold resp_json; destruct (ok resp); [destruct (json resp)|];
    reflexivity ].

(* ===================================================================== *)
(** ** Trimming *)
(* ===================================================================== *)

Lemma trimStart_blank (s : jsstring) : blank s = true -> trimStart s = [].
Proof.
  induction s as [|u s IH]; simpl; [reflexivity|].
  intros H. apply andb_prop in H as [Hu Hs]. rewrite Hu. auto.
Qed.

Lemma trimStart_nil_blank (s : jsstring) : trimStart s = [] -> blank s = true.
Proof.
  induction s as [|u s IH]; simpl; [reflexivity|].
  destruct (is_ws u); simpl; [exact IH | discriminate].
Qed.

Lemma trimStart_split (s : jsstring) :
  exists pre, s = pre ++ trimStart s /\ blank pre = true.
Proof.
  induction s as [|u s [pre [Hs Hpre]]]; simpl.
  - exists []. split; reflexivity.
  - destruct (is_ws u) eqn:Hu.
    + exists (u :: pre). simpl. rewrite Hu, Hpre. split; [congruence|reflexivity].
    + exists []. split; reflexivity.
Qed.

Lemma trimStart_solid (s : jsstring) :
  starts_solid s = true -> trimStart s = s.
Proof.
  destruct s as [|u s]; simpl; [discriminate|].
  destruct (is_ws u); [discriminate|reflexivity].
Qed.

Lemma starts_solid_app (s t : jsstring) :
  starts_solid s = true -> starts_solid (s ++ t) = true.
Proof. destruct s; simpl; [discriminate | auto]. Qed.

Lemma blank_app (s t : jsstring) : blank (s ++ t) = blank s && blank t.
Proof. apply forallb_app. Qed.

Lemma blank_rev (s : jsstring) : blank (List.rev s) = blank s.
Proof.
  induction s as [|u s IH]; simpl; [reflexivity|].
  rewrite blank_app, IH. simpl. rewrite andb_true_r. apply andb_comm.
Qed.

(** A string trims to the empty string exactly when it is made of white
    space only. *)
Lemma trim_blank_iff (s : jsstring) : trim s = [] <-> blank s = true.
Proof.
  unfold trim, trimEnd. split.
  - intros H.
    assert (Hr : trimStart (List.rev (trimStart s)) = []).
    { apply (f_equal (@List.rev N)) in H.
      rewrite rev_involutive in H. exact H. }
    apply trimStart_nil_blank in Hr. rewrite blank_rev in Hr.
    destruct (trimStart_split s) as [pre [Hs Hpre]].
    rewrite Hs, blank_app, Hpre, Hr. reflexivity.
  - intros H. rewrite (trimStart_blank s H). reflexivity.
Qed.

(** Trimming a template that is a line feed, a text that starts and ends
    with something else than white space, and a line feed, leaves the
    text, whatever is interpolated in the middle. *)
Lemma trim_frame (P mid S : jsstring) :
  starts_solid P = true -> ends_solid S = true ->
  trim (LF ++ P ++ mid ++ S ++ LF) = P ++ mid ++ S.
Proof.
  intros HP HS.
  assert (H1 : trimStart (LF ++ P ++ mid ++ S ++ LF) = P ++ mid ++ S ++ LF).
  { change (trimStart (LF ++ P ++ mid ++ S ++ LF))
      with (trimStart (P ++ mid ++ S ++ LF)).
    apply trimStart_solid, starts_solid_app, HP. }
  assert (H2 : List.rev (P ++ mid ++ S ++ LF)
               = LF ++ List.rev S ++ List.rev (P ++ mid)).
  { rewrite !app_assoc, rev_app_distr. simpl.
    rewrite rev_app_distr. reflexivity. }
  assert (H3 : trimStart (LF ++ List.rev S ++ List.rev (P ++ mid))
               = List.rev S ++ List.rev (P ++ mid)).
  { change (trimStart (LF ++ List.rev S ++ List.rev (P ++ mid)))
      with (trimStart (List.rev S ++ List.rev (P ++ mid))).
    apply trimStart_solid, starts_solid_app, HS. }
  unfold trim, trimEnd. rewrite H1, H2, H3.
  rewrite <- rev_app_distr, rev_involutive, app_assoc. reflexivity.
Qed.

(** A non-empty result of [trim] is truthy. *)
Lemma truthy_true (s : jsstring) : truthy s = true <-> s <> [].
Proof. destruct s; simpl; split; congruence. Qed.

(* ===================================================================== *)
(** ** The prompts *)
(* ===================================================================== *)


Lemma followup_question_eq (selectedText : option jsstring)
    (trimmed : jsstring) :
  followup_question selectedText trimmed
  = followup_head ++ String_of selectedText ++ followup_middle
      ++ trimmed ++ followup_tail.
Proof.
  transitivity (followup_head
                ++ (String_of selectedText ++ followup_middle ++ trimmed)
                ++ followup_tail).
  - rewrite <- (trim_frame followup_head
                  (String_of selectedText ++ followup_middle ++ trimmed)
                  followup_tail) by (vm_compute; reflexivity).
    unfold followup_question. f_equal.
    rewrite <- !app_assoc. reflexivity.
  - rewrite <- !app_assoc. reflexivity.
Qed.

Lemma embeds_intro (before t after : jsstring) : embeds (before ++ t ++ after) t.
Proof. exists before, after. reflexivity. Qed.


Lemma followup_question_embeds (sel trimmed : jsstring) :
  embeds (followup_question (Some sel) trimmed) sel
  /\ embeds (followup_question (Some sel) trimmed) trimmed.
Proof.
  rewrite followup_question_eq. simpl String_of. split.
  - apply embeds_intro.
  - exists (followup_head ++ sel ++ followup_middle), followup_tail.
    rewrite <- !app_assoc. reflexivity.
Qed.

(* ===================================================================== *)
(** ** Runs of page actions *)
(* ===================================================================== *)

(** Page actions leave everything but the page and the log alone. *)
Lemma page_acts_frame (acts : list PageAction) (w : World) :
  viewer (page_acts acts w) = viewer w
  /\ live (page_acts acts w) = live w
  /\ nextUrl (page_acts acts w) = nextUrl w
  /\ pending (page_acts acts w) = pending w
  /\ nextRequest (page_acts acts w) = nextRequest w.
Proof.
  revert w. induction acts as [|a acts IH]; intros w; simpl.
  - repeat split.
  - destruct (IH (page_do a w)) as (H1 & H2 & H3 & H4 & H5).
    rewrite H1, H2, H3, H4, H5. repeat split.
Qed.

Lemma page_acts_trace (acts : list PageAction) (w : World) :
  trace (page_acts acts w) = List.rev (List.map PageDid acts) ++ trace w.
Proof.
  revert w. induction acts as [|a acts IH]; intros w; simpl; [reflexivity|].
  rewrite IH. simpl. rewrite <- app_assoc. reflexivity.
Qed.

Lemma page_acts_page (acts : list PageAction) (w : World) :
  page (page_acts acts w)
  = List.fold_left (fun s a => page_apply a s) acts (page w).
Proof.
  revert w. induction acts as [|a acts IH]; intros w; simpl; [reflexivity|].
  rewrite IH. reflexivity.
Qed.

(** The log entries of the page change nothing to the object URLs. *)
Lemma alive_page_log (acts : list PageAction) (tr : list Obs) :
  alive (List.map PageDid acts ++ tr) = alive tr.
Proof. induction acts as [|a acts IH]; cbn [List.map app alive]; auto. Qed.

Lemma managed_page_log (acts : list PageAction) (tr : list Obs) :
  managed tr -> (size (alive tr) <= 1)%nat ->
  managed (List.map PageDid acts ++ tr).
Proof.
  intros Hm Hs. induction acts as [|a acts IH]; [exact Hm|].
  cbn [List.map app managed alive]. rewrite alive_page_log. auto.
Qed.

Lemma managed_size (tr : list Obs) :
  managed tr -> (size (alive tr) <= 1)%nat.
Proof.
  destruct tr as [|o tr].
  - intros _. unfold alive. rewrite size_empty. lia.
  - intros (_ & H & _). exact H.
Qed.

(** The actions of a reply keep the file name, the selection and the
    input. *)
Lemma reply_actions_keep (acts : list PageAction) (s : PageState) :
  List.forallb reply_action acts = true ->
  let s' := List.fold_left (fun s a => page_apply a s) acts s in
  currentFileName s' = currentFileName s
  /\ selectedText s' = selectedText s
  /\ highlightInput s' = highlightInput s.
Proof.
  revert s. induction acts as [|a acts IH]; intros s H; simpl in *.
  - repeat split.
  - apply andb_prop in H as [Ha Hacts].
    destruct (IH (page_apply a s) Hacts) as (H1 & H2 & H3).
    rewrite H1, H2, H3. destruct a; try discriminate; repeat split.
Qed.

(* ===================================================================== *)
(** ** The backend client *)
(* ===================================================================== *)

(** [callRAG] logs the call, sends one request and awaits it; once the
    request has settled it returns or throws, and sends nothing more. *)
Lemma callRAG_exec (env : option jsstring) (path : jsstring) (body : JsValue)
    (w : World) :
  exists k : FetchSettled -> Prog PageE RAGResponse,
    exec_page (callRAG env path body) w
    = (callRAG_request env path body w, Parked (nextRequest w) k)
    /\ forall settled w',
        exec_page (k settled) w'
        = (page_acts (callRAG_log settled) w',
           result_of (callRAG_result settled)).
Proof.
  eexists. split; [reflexivity|].
  intros [e|resp] w'; exec_simpl; [reflexivity|].
  unfold resp_json.
  destruct (ok resp); [destruct (json resp)|]; reflexivity.
Qed.

(* ===================================================================== *)
(** ** The handlers of the page *)
(* ===================================================================== *)

Lemma fetchOverviewForFile_run (env : option jsstring) (fileName : jsstring)
    (w : World) :
  exists k : FetchSettled -> Prog PageE unit,
    run_page (fetchOverviewForFile env fileName) w
    = with_pending (fun m => <[nextRequest w := k]> m)
        (callRAG_request env (lit "/api/rag/overview")
           (JObj [(lit "question", JStr (overview_question fileName));
                  (lit "file_name", JStr fileName)])
           (page_acts [SetOverviewLoading true; SetOverviewError None;
                       SetOverviewText []] w))
    /\ forall settled w',
        run_page (k settled) w' = page_acts (overview_reply settled) w'.
Proof.
  eexists. split.
  - unfold run_page, fetchOverviewForFile. exec_simpl. reflexivity.
  - intros settled w'. unfold overview_reply. settle_cases settled.
Qed.

Lemma handleFileLoaded_run (env : option jsstring) (fileName : jsstring)
    (w : World) :
  run_page (handleFileLoaded env fileName) w
  = run_page (fetchOverviewForFile env fileName)
      (page_acts [SetCurrentFileName (Some fileName); SetSelectedText None;
                  SetHighlightMessages []; SetHighlightInput []] w).
Proof. reflexivity. Qed.

Lemma handleSelection_run (env : option jsstring) (text : jsstring)
    (w : World) :
  exists k : FetchSettled -> Prog PageE unit,
    run_page (handleSelection env text) w
    = with_pending (fun m => <[nextRequest w := k]> m)
        (callRAG_request env (lit "/api/rag/highlight")
           (JObj [(lit "question", JStr (selection_question text))])
           (page_acts [SetSelectedText (Some text); SetHighlightMessages [];
                       SetHighlightInput []] w))
    /\ forall settled w',
        run_page (k settled) w' = page_acts (selection_reply settled) w'.
Proof.
  eexists. split.
  - unfold run_page, handleSelection. exec_simpl. reflexivity.
  - intros settled w'. unfold selection_reply. settle_cases settled.
Qed.

Lemma handleClearSelection_run (w : World) :
  run_page handleClearSelection w
  = page_acts [SetSelectedText None; SetHighlightMessages [];
               SetHighlightInput []] w.
Proof. reflexivity. Qed.

(** A submission the guard lets through. *)
Lemma handleHighlightSubmit_run (env : option jsstring) (w : World)
    (sel : jsstring) :
  selectedText (page w) = Some sel -> sel <> [] ->
  trim (highlightInput (page w)) <> [] ->
  let trimmed := trim (highlightInput (page w)) in
  exists k : FetchSettled -> Prog PageE unit,
    run_page (handleHighlightSubmit env (page w)) w
    = with_pending (fun m => <[nextRequest w := k]> m)
        (callRAG_request env (lit "/api/rag/highlight")
           (JObj [(lit "question",
                   JStr (followup_question (Some sel) trimmed))])
           (page_acts
              [PreventDefault;
               UpdateHighlightMessages
                 (fun prev => prev ++ [ {| role := user; content := trimmed |} ]);
               SetHighlightInput []] w))
    /\ forall settled w',
        run_page (k settled) w' = page_acts (followup_reply settled) w'.
Proof.
  intros Hsel Hne Htrim trimmed. subst trimmed.
  apply truthy_true in Hne. apply truthy_true in Htrim.
  eexists. split.
  - unfold run_page, handleHighlightSubmit. exec_simpl. rewrite Hsel.
    cbn [truthy_opt]. rewrite Hne, Htrim. reflexivity.
  - intros settled w'. unfold followup_reply. settle_cases settled.
Qed.

(** A submission the guard turns away: nothing but [preventDefault]. *)
Lemma handleHighlightSubmit_ignored (env : option jsstring) (w : World) :
  trim (highlightInput (page w)) = []
  \/ truthy_opt (selectedText (page w)) = false ->
  run_page (handleHighlightSubmit env (page w)) w = page_do PreventDefault w.
Proof.
  intros H. unfold run_page, handleHighlightSubmit.
  assert (Hg : negb (truthy (trim (highlightInput (page w))))
               || negb (truthy_opt (selectedText (page w))) = true).
  { destruct H as [H|H]; rewrite H; simpl;
      [reflexivity | apply orb_true_r]. }
  exec_simpl. rewrite Hg. reflexivity.
Qed.

(* ===================================================================== *)
(** ** The handlers of the viewer, wired to the page *)
(* ===================================================================== *)

Lemma cleanup_run (p : PDFInnerProps) (s : ViewerState) (w : World) :
  run_viewer p (cleanup s) w = revoke_opt (fileUrl s) w.
Proof. unfold cleanup, revoke_opt. destruct (fileUrl s); reflexivity. Qed.

Lemma commit_same (env : option jsstring) (before : ViewerState) (w : World) :
  fileUrl (viewer w) = fileUrl before -> commit env before w = w.
Proof. intros H. unfold commit. rewrite decide_True by exact H. reflexivity. Qed.

Lemma commit_cases (env : option jsstring) (before : ViewerState) (w : World) :
  commit env before w = w
  \/ commit env before w = revoke_opt (fileUrl before) w.
Proof.
  unfold commit. case_decide; [left; reflexivity|right; apply cleanup_run].
Qed.

(** No file from the picker: the handler returns at once. *)
Lemma handle_FileChange_none (env : option jsstring) (files : option (list File))
    (w : World) :
  first_file files = None -> handle env (FileChange files) w = w.
Proof.
  intros H. unfold handle, handleFileChange.
  change (match files with Some l => nth_error l 0 | None => None end)
    with (first_file files).
  rewrite H. reflexivity.
Qed.

Lemma handle_FileChange_some (env : option jsstring)
    (files : option (list File)) (file : File) (w : World) :
  first_file files = Some file ->
  handle env (FileChange files) w
  = run_page (handleFileLoaded env (name file))
      (viewer_do (OnFileLoaded (name file))
         (run_page handleClearSelection
            (viewer_do OnClearSelection
               (viewer_do (SetHighlightRect None)
                  (viewer_do (SetFileUrl (Some (fresh_url w)))
                     (mint file
                        (revoke_opt (fileUrl (viewer w))
                           (viewer_do (SetFileObj (Some file)) w)))))))).
Proof.
  intros H. unfold handle, handleFileChange.
  change (match files with Some l => nth_error l 0 | None => None end)
    with (first_file files).
  rewrite H. destruct (fileUrl (viewer w)); reflexivity.
Qed.

(** A pointer release without a selection worth the name. *)
Lemma handleMouseUp_ignored (p : PDFInnerProps)
    (selection : option Selection) (container : option Container)
    (w : World) :
  match selection with
  | None => True
  | Some s => isCollapsed s = true \/ trim (toString s) = []
  end
  \/ container = None ->
  run_viewer p (handleMouseUp selection container) w = w.
Proof.
  intros H. unfold handleMouseUp.
  destruct selection as [s|]; [|reflexivity].
  destruct (isCollapsed s); [reflexivity|].
  destruct (trim (toString s)) as [|u t] eqn:Ht; [reflexivity|].
  destruct container as [c|]; [|reflexivity].
  destruct H as [[H|H]|H]; discriminate.
Qed.

Lemma handle_MouseUp_selected (env : option jsstring) (s : Selection)
    (c : Container) (w : World) :
  isCollapsed s = false -> trim (toString s) <> [] ->
  handle env (MouseUp (Some s) (Some c)) w
  = run_page (handleSelection env (trim (toString s)))
      (viewer_do (OnSelection (trim (toString s)))
         (viewer_do (SetHighlightRect (Some (selection_rect s c))) w)).
Proof.
  intros Hc Ht. apply truthy_true in Ht.
  unfold handle, handleMouseUp. rewrite Hc, Ht. reflexivity.
Qed.

Lemma handle_MouseDown_background (env : option jsstring) (c : Container)
    (selection : option Selection) (w : World) :
  handle env (MouseDown TheContainer (Some c) selection) w
  = (match selection with
     | Some _ => viewer_do RemoveAllRanges
     | None => fun w => w
     end)
      (run_page handleClearSelection
         (viewer_do OnClearSelection
            (viewer_do (SetHighlightRect None) w))).
Proof. destruct selection; reflexivity. Qed.

Lemma handle_MouseDown_elsewhere (env : option jsstring) (target : Target)
    (container : option Container) (selection : option Selection)
    (w : World) :
  target = RenderedContent \/ container = None ->
  handle env (MouseDown target container selection) w = w.
Proof.
  intros [H|H]; subst; [destruct container|]; reflexivity.
Qed.

(* ===================================================================== *)
(** ** What every reachable state of the tab satisfies *)
(* ===================================================================== *)

Lemma Inv_init : Inv World_init.
Proof.
  constructor.
  - intros id k H. cbn [World_init pending] in H.
    rewrite lookup_empty in H. discriminate.
  - discriminate.
  - reflexivity.
  - cbn [World_init live]. set_solver.
  - exact I.
Qed.

(** The rest of each of the three [async] handlers only replies. *)
Lemma overview_reply_actions (settled : FetchSettled) :
  List.forallb reply_action (overview_reply settled) = true.
Proof.
  unfold overview_reply, callRAG_log, callRAG_result.
  destruct settled as [e|resp]; [reflexivity|].
  destruct (ok resp); [destruct (json resp)|]; reflexivity.
Qed.

Lemma selection_reply_actions (settled : FetchSettled) :
  List.forallb reply_action (selection_reply settled) = true.
Proof.
  unfold selection_reply, callRAG_log, callRAG_result.
  destruct settled as [e|resp]; [reflexivity|].
  destruct (ok resp); [destruct (json resp)|]; reflexivity.
Qed.

Lemma managed_cons (o : Obs) (tr : list Obs) :
  managed tr ->
  (size (alive (o :: tr)) <= 1)%nat ->
  match o with Created _ _ => alive tr = ∅ | _ => True end ->
  managed (o :: tr).
Proof. intros H1 H2 H3. exact (conj H1 (conj H2 H3)). Qed.

Lemma alive_page_acts (acts : list PageAction) (w : World) :
  alive (trace (page_acts acts w)) = alive (trace w).
Proof.
  rewrite page_acts_trace, <- map_rev. apply alive_page_log.
Qed.

Lemma managed_page_acts (acts : list PageAction) (w : World) :
  managed (trace w) -> managed (trace (page_acts acts w)).
Proof.
  intros H. rewrite page_acts_trace, <- map_rev.
  apply managed_page_log; [exact H | apply managed_size, H].
Qed.

(** A state change that sends one more request, whose rest only replies,
    and leaves the viewer and the object URLs alone. *)
Lemma Inv_request (w0 : World) (k : FetchSettled -> Prog PageE unit)
    (url : jsstring) (init : RequestInit) :
  Inv w0 ->
  settles_on_page k ->
  Inv (with_pending (fun m => <[nextRequest w0 := k]> m) (issue url init w0)).
Proof.
  intros [Hp Hs Ha Hh Hm] Hk.
  constructor.
  - intros id k'. cbn [pending nextRequest with_pending issue log].
    intros H.
    destruct (decide (nextRequest w0 = id)) as [<-|Hne].
    + rewrite lookup_insert_eq in H. injection H as <-. split; [exact Hk|lia].
    + rewrite lookup_insert_ne in H by exact Hne.
      destruct (Hp _ _ H). split; [assumption|lia].
  - exact Hs.
  - exact Ha.
  - exact Hh.
  - change (managed (Requested (nextRequest w0) url init :: trace w0)).
    apply managed_cons; [exact Hm | exact (managed_size _ Hm) | exact I].
Qed.

(** Page actions keep the invariant as long as they leave a selection
    that is null or not empty. *)
Lemma Inv_page_acts (acts : list PageAction) (w : World) :
  Inv w ->
  selectedText (page (page_acts acts w)) <> Some [] ->
  Inv (page_acts acts w).
Proof.
  intros [Hp Hs Ha Hh Hm] Hsel.
  destruct (page_acts_frame acts w) as (Hv & Hl & _ & Hpe & Hn).
  constructor.
  - rewrite Hpe, Hn. exact Hp.
  - exact Hsel.
  - rewrite alive_page_acts, Hl. exact Ha.
  - rewrite Hv, Hl. exact Hh.
  - apply managed_page_acts, Hm.
Qed.

Lemma Inv_viewer_do (a : ViewerAction) (w : World) :
  Inv w -> plain_action a = true -> Inv (viewer_do a w).
Proof.
  intros [Hp Hs Ha Hh Hm] Hplain.
  constructor.
  - exact Hp.
  - exact Hs.
  - destruct a; try discriminate; exact Ha.
  - destruct a; try discriminate; exact Hh.
  - change (managed (ViewerDid a :: trace w)).
    apply managed_cons; [exact Hm| |exact I].
    destruct a; try discriminate; exact (managed_size _ Hm).
Qed.

(** Revoking keeps the invariant. *)
Lemma Inv_revoke (url : ObjectURL) (w : World) :
  Inv w -> Inv (viewer_do (RevokeObjectURL url) w).
Proof.
  intros [Hp Hs Ha Hh Hm].
  constructor.
  - exact Hp.
  - exact Hs.
  - change (alive (trace w) ∖ {[ url ]} = live w ∖ {[ url ]}).
    rewrite Ha. reflexivity.
  - change (live w ∖ {[ url ]} ⊆ held (viewer w)).
    clear -Hh. set_solver.
  - change (managed (ViewerDid (RevokeObjectURL url) :: trace w)).
    apply managed_cons; [exact Hm| |exact I].
    cbn [alive].
    etransitivity; [apply subseteq_size|exact (managed_size _ Hm)].
    clear. set_solver.
Qed.

Lemma Inv_revoke_opt (o : option ObjectURL) (w : World) :
  Inv w -> Inv (revoke_opt o w).
Proof. destruct o; [apply Inv_revoke | auto]. Qed.

Lemma Inv_commit (env : option jsstring) (before : ViewerState) (w : World) :
  Inv w -> Inv (commit env before w).
Proof.
  intros H. destruct (commit_cases env before w) as [-> | ->];
    [exact H | apply Inv_revoke_opt, H].
Qed.

Lemma fresh_url_revoke_opt (o : option ObjectURL) (w : World) :
  fresh_url (revoke_opt o w) = fresh_url w.
Proof. destruct o; reflexivity. Qed.

(** Revoking what the render holds leaves no object URL alive. *)
Lemma revoke_held_empty (w : World) :
  Inv w -> live (revoke_opt (fileUrl (viewer w)) w) = ∅.
Proof.
  intros [_ _ _ Hh _]. unfold held in Hh. unfold revoke_opt.
  destruct (fileUrl (viewer w)) as [url|].
  - change (live w ∖ {[ url ]} = ∅). set_solver.
  - set_solver.
Qed.

(** Creating an object URL when none is alive, and storing it. *)
Lemma Inv_mint (file : File) (w : World) :
  Inv w -> live w = ∅ ->
  Inv (viewer_do (SetFileUrl (Some (fresh_url w))) (mint file w)).
Proof.
  intros [Hp Hs Ha Hh Hm] Hl.
  constructor.
  - exact Hp.
  - exact Hs.
  - change ({[ fresh_url w ]} ∪ alive (trace w) = {[ fresh_url w ]} ∪ live w).
    rewrite Ha. reflexivity.
  - change ({[ fresh_url w ]} ∪ live w ⊆ {[ fresh_url w ]}).
    rewrite Hl. clear. set_solver.
  - change (managed (ViewerDid (SetFileUrl (Some (fresh_url w)))
                       :: Created (fresh_url w) file :: trace w)).
    assert (Hone : (size ({[ fresh_url w ]} ∪ alive (trace w)) <= 1)%nat).
    { rewrite Ha, Hl, union_empty_r_L, size_singleton. lia. }
    apply managed_cons; [|exact Hone|exact I].
    apply managed_cons; [exact Hm|exact Hone|].
    rewrite Ha. exact Hl.
Qed.

Lemma Inv_clear (w : World) : Inv w -> Inv (run_page handleClearSelection w).
Proof.
  intros H. rewrite handleClearSelection_run.
  apply Inv_page_acts; [exact H | discriminate].
Qed.

Lemma Inv_callRAG_request (env : option jsstring) (path : jsstring)
    (body : JsValue) (k : FetchSettled -> Prog PageE unit) (w : World) :
  Inv w -> settles_on_page k ->
  Inv (with_pending (fun m => <[nextRequest w := k]> m)
         (callRAG_request env path body w)).
Proof.
  intros H Hk. unfold callRAG_request.
  match goal with
  | |- context [page_do ?a w] =>
      apply (Inv_request (page_do a w));
        [apply (Inv_page_acts [a]); [exact H | apply H] | exact Hk]
  end.
Qed.

Lemma Inv_fetchOverview (env : option jsstring) (fileName : jsstring)
    (w : World) :
  Inv w -> Inv (run_page (fetchOverviewForFile env fileName) w).
Proof.
  intros H.
  destruct (fetchOverviewForFile_run env fileName w) as (k & -> & Hk).
  match goal with
  | |- context [page_acts ?acts w] =>
      apply (Inv_callRAG_request _ _ _ k (page_acts acts w))
  end.
  - apply Inv_page_acts; [exact H | apply H].
  - intros settled w'. exists (overview_reply settled).
    split; [apply Hk | apply overview_reply_actions].
Qed.

Lemma Inv_handleFileLoaded (env : option jsstring) (fileName : jsstring)
    (w : World) :
  Inv w -> Inv (run_page (handleFileLoaded env fileName) w).
Proof.
  intros H. rewrite handleFileLoaded_run.
  apply Inv_fetchOverview, Inv_page_acts; [exact H | discriminate].
Qed.

Lemma Inv_handleSelection (env : option jsstring) (text : jsstring)
    (w : World) :
  Inv w -> text <> [] -> Inv (run_page (handleSelection env text) w).
Proof.
  intros H Ht.
  destruct (handleSelection_run env text w) as (k & -> & Hk).
  match goal with
  | |- context [page_acts ?acts w] =>
      apply (Inv_callRAG_request _ _ _ k (page_acts acts w))
  end.
  - apply Inv_page_acts; [exact H | ].
    cbn. congruence.
  - intros settled w'. exists (selection_reply settled).
    split; [apply Hk | apply selection_reply_actions].
Qed.

Lemma followup_reply_actions (settled : FetchSettled) :
  List.forallb reply_action (followup_reply settled) = true.
Proof.
  unfold followup_reply, callRAG_log, callRAG_result.
  destruct settled as [e|resp]; [reflexivity|].
  destruct (ok resp); [destruct (json resp)|]; reflexivity.
Qed.

Lemma Inv_submit (env : option jsstring) (w : World) :
  Inv w -> Inv (run_page (handleHighlightSubmit env (page w)) w).
Proof.
  intros H.
  destruct (trim (highlightInput (page w))) as [|u t] eqn:Ht.
  { rewrite handleHighlightSubmit_ignored by (left; exact Ht).
    apply (Inv_page_acts [PreventDefault]); [exact H | apply H]. }
  destruct (truthy_opt (selectedText (page w))) eqn:Hsel.
  2:{ rewrite handleHighlightSubmit_ignored by (right; exact Hsel).
      apply (Inv_page_acts [PreventDefault]); [exact H | apply H]. }
  destruct (selectedText (page w)) as [sel|] eqn:Hs; [|discriminate].
  apply truthy_true in Hsel.
  destruct (handleHighlightSubmit_run env w sel Hs Hsel) as (k & Hrun & Hk).
  { rewrite Ht. discriminate. }
  rewrite Hrun.
  match goal with
  | |- context [page_acts ?acts w] =>
      apply (Inv_callRAG_request _ _ _ k (page_acts acts w))
  end.
  - apply Inv_page_acts; [exact H | ].
    cbn. rewrite Hs. congruence.
  - intros settled w'. exists (followup_reply settled).
    split; [apply Hk | apply followup_reply_actions].
Qed.

Lemma Inv_settle (id : nat) (settled : FetchSettled)
    (k : FetchSettled -> Prog PageE unit) (w : World) :
  Inv w -> pending w !! id = Some k ->
  Inv (run_page (k settled) (with_pending (delete id) w)).
Proof.
  intros H Hk.
  assert (Hdel : Inv (with_pending (delete id) w)).
  { destruct H as [Hp Hs Ha Hh Hm]. constructor; try assumption.
    intros id' k'. cbn [pending with_pending nextRequest]. intros Hl.
    apply lookup_delete_Some in Hl as [_ Hl]. exact (Hp _ _ Hl). }
  destruct (inv_pending _ H _ _ Hk) as [Hsettle _].
  destruct (Hsettle settled (with_pending (delete id) w)) as (acts & -> & Hacts).
  apply Inv_page_acts; [exact Hdel|].
  rewrite page_acts_page.
  destruct (reply_actions_keep acts (page (with_pending (delete id) w)) Hacts)
    as (_ & -> & _).
  apply H.
Qed.

(** The handler of an event keeps the invariant, and so does the render
    that follows. *)
Lemma handle_Inv (env : option jsstring) (ev : Event) (w : World) :
  Inv w -> Inv (handle env ev w).
Proof.
  intros H. destruct ev as [files|sel cont|target cont sel|n|err|v| |id settled].
  - destruct (first_file files) as [file|] eqn:Hf.
    + rewrite (handle_FileChange_some env files file w Hf).
      apply Inv_handleFileLoaded, Inv_viewer_do; [|reflexivity].
      apply Inv_clear.
      apply Inv_viewer_do; [|reflexivity].
      apply Inv_viewer_do; [|reflexivity].
      assert (H1 : Inv (viewer_do (SetFileObj (Some file)) w))
        by (apply Inv_viewer_do; [exact H | reflexivity]).
      assert (H2 := Inv_revoke_opt (fileUrl (viewer w)) _ H1).
      change (fresh_url w)
        with (fresh_url (viewer_do (SetFileObj (Some file)) w)).
      rewrite <- (fresh_url_revoke_opt (fileUrl (viewer w))
                    (viewer_do (SetFileObj (Some file)) w)).
      apply (Inv_mint file _ H2).
      apply (revoke_held_empty _ H1).
    + rewrite (handle_FileChange_none env files w Hf). exact H.
  - destruct sel as [s|], cont as [c|];
      try (unfold handle; rewrite handleMouseUp_ignored; [exact H|tauto]).
    destruct (isCollapsed s) eqn:Hc.
    { unfold handle. rewrite handleMouseUp_ignored; [exact H|tauto]. }
    destruct (trim (toString s)) as [|u t] eqn:Ht.
    { unfold handle. rewrite handleMouseUp_ignored; [exact H|tauto]. }
    assert (Hne : trim (toString s) <> []) by (rewrite Ht; discriminate).
    rewrite (handle_MouseUp_selected env s c w Hc Hne).
    apply Inv_handleSelection; [|exact Hne].
    apply Inv_viewer_do; [|reflexivity].
    apply Inv_viewer_do; [exact H|reflexivity].
  - destruct target, cont as [c|];
      try (rewrite handle_MouseDown_elsewhere; [exact H|tauto]).
    rewrite handle_MouseDown_background.
    assert (H1 : Inv (run_page handleClearSelection
                        (viewer_do OnClearSelection
                           (viewer_do (SetHighlightRect None) w)))).
    { apply Inv_clear.
      apply Inv_viewer_do; [|reflexivity].
      apply Inv_viewer_do; [exact H|reflexivity]. }
    destruct sel; [apply Inv_viewer_do; [exact H1|reflexivity] | exact H1].
  - unfold handle. destruct (fileUrl (viewer w)); [|exact H].
    apply (Inv_viewer_do (SetNumPages n)); [exact H|reflexivity].
  - unfold handle. destruct (fileUrl (viewer w)); [|exact H].
    apply (Inv_viewer_do (ViewerConsoleError _)); [exact H|reflexivity].
  - unfold handle. destruct (truthy_opt (selectedText (page w))); [|exact H].
    apply (Inv_page_acts [SetHighlightInput v]); [exact H | apply H].
  - unfold handle. destruct (truthy_opt (selectedText (page w))); [|exact H].
    apply Inv_submit, H.
  - unfold handle. destruct (pending w !! id) as [k|] eqn:Hk; [|exact H].
    apply Inv_settle; assumption.
Qed.

Lemma step_Inv (env : option jsstring) (ev : Event) (w : World) :
  Inv w -> Inv (step env w ev).
Proof. intros H. apply Inv_commit, handle_Inv, H. Qed.

Lemma run_Inv (env : option jsstring) (evs : list Event) (w : World) :
  Inv w -> Inv (run env evs w).
Proof.
  revert w. induction evs as [|ev evs IH]; intros w H; [exact H|].
  apply IH, step_Inv, H.
Qed.

Lemma reachable_Inv (env : option jsstring) (w : World) :
  reachable env w -> Inv w.
Proof. intros [evs <-]. apply run_Inv, Inv_init. Qed.

(* ===================================================================== *)
(** ** Settling a request *)
(* ===================================================================== *)

(** Settling a request in flight runs the rest of its handler; a render
    follows that changes nothing to the viewer. *)
Lemma step_Settle (env : option jsstring) (id : nat) (settled : FetchSettled)
    (k : FetchSettled -> Prog PageE unit) (acts : list PageAction)
    (w : World) :
  pending w !! id = Some k ->
  (forall w', run_page (k settled) w' = page_acts acts w') ->
  step env w (Settle id settled) = page_acts acts (with_pending (delete id) w).
Proof.
  intros Hk Hrun. unfold step, handle. rewrite Hk, Hrun.
  apply commit_same.
  destruct (page_acts_frame acts (with_pending (delete id) w)) as (-> & _).
  reflexivity.
Qed.

(** What the reply of the overview request leaves in the cells. *)
Lemma overview_reply_page (settled : FetchSettled) (s : PageState) :
  List.fold_left (fun s a => page_apply a s) (overview_reply settled) s
  = match backend_reply settled with
    | Some res =>
        {| overviewText := answer res;
           overviewLoading := false;
           overviewError := overviewError s;
           currentFileName := currentFileName s;
           selectedText := selectedText s;
           highlightMessages := highlightMessages s;
           highlightInput := highlightInput s |}
    | None =>
        {| overviewText := overviewText s;
           overviewLoading := false;
           overviewError := Some OVERVIEW_ERROR;
           currentFileName := currentFileName s;
           selectedText := selectedText s;
           highlightMessages := highlightMessages s;
           highlightInput := highlightInput s |}
    end.
Proof.
  unfold overview_reply, callRAG_log, callRAG_result, backend_reply.
  destruct settled as [e|resp]; [reflexivity|].
  destruct (ok resp); [destruct (json resp)|]; reflexivity.
Qed.

Lemma selection_reply_page (settled : FetchSettled) (s : PageState) :
  List.fold_left (fun s a => page_apply a s) (selection_reply settled) s
  = {| overviewText := overviewText s;
       overviewLoading := overviewLoading s;
       overviewError := overviewError s;
       currentFileName := currentFileName s;
       selectedText := selectedText s;
       highlightMessages := [explanation settled];
       highlightInput := highlightInput s |}.
Proof.
  unfold selection_reply, explanation, callRAG_log, callRAG_result,
    backend_reply.
  destruct settled as [e|resp]; [reflexivity|].
  destruct (ok resp); [destruct (json resp)|]; reflexivity.
Qed.

(* ===================================================================== *)
(** ** Events of the highlight flow *)
(* ===================================================================== *)

Lemma step_MouseUp_selected (env : option jsstring) (s : Selection)
    (c : Container) (w : World) :
  isCollapsed s = false -> trim (toString s) <> [] ->
  exists k : FetchSettled -> Prog PageE unit,
    step env w (MouseUp (Some s) (Some c))
    = with_pending (fun m => <[nextRequest w := k]> m)
        (callRAG_request env (lit "/api/rag/highlight")
           (JObj [(lit "question",
                   JStr (selection_question (trim (toString s))))])
           (page_acts [SetSelectedText (Some (trim (toString s)));
                       SetHighlightMessages []; SetHighlightInput []]
              (viewer_do (OnSelection (trim (toString s)))
                 (viewer_do (SetHighlightRect (Some (selection_rect s c)))
                    w))))
    /\ forall settled w',
        run_page (k settled) w' = page_acts (selection_reply settled) w'.
Proof.
  intros Hc Ht. unfold step.
  rewrite (handle_MouseUp_selected env s c w Hc Ht).
  match goal with
  | |- context [run_page (handleSelection env ?t) ?w0] =>
      destruct (handleSelection_run env t w0) as (k & -> & Hk)
  end.
  exists k. split; [|exact Hk].
  apply commit_same. reflexivity.
Qed.

Lemma step_InputChange (env : option jsstring) (value : jsstring)
    (w : World) :
  truthy_opt (selectedText (page w)) = true ->
  step env w (InputChange value) = page_acts [SetHighlightInput value] w.
Proof.
  intros H. unfold step, handle. rewrite H. apply commit_same. reflexivity.
Qed.

Lemma followup_reply_page (settled : FetchSettled) (s : PageState) :
  List.fold_left (fun s a => page_apply a s) (followup_reply settled) s
  = {| overviewText := overviewText s;
       overviewLoading := overviewLoading s;
       overviewError := overviewError s;
       currentFileName := currentFileName s;
       selectedText := selectedText s;
       highlightMessages := highlightMessages s ++ [followup_answer settled];
       highlightInput := highlightInput s |}.
Proof.
  unfold followup_reply, followup_answer, callRAG_log, callRAG_result,
    backend_reply.
  destruct settled as [e|resp]; [reflexivity|].
  destruct (ok resp); [destruct (json resp)|]; reflexivity.
Qed.

(** A follow-up the guard lets through: when the handler returns the
    request is in flight; its rest is the reply of a follow-up. *)
Lemma step_Submit_accepted (env : option jsstring) (w : World)
    (sel : jsstring) :
  selectedText (page w) = Some sel -> sel <> [] ->
  trim (highlightInput (page w)) <> [] ->
  let trimmed := trim (highlightInput (page w)) in
  exists k : FetchSettled -> Prog PageE unit,
    step env w Submit
    = with_pending (fun m => <[nextRequest w := k]> m)
        (callRAG_request env (lit "/api/rag/highlight")
           (JObj [(lit "question",
                   JStr (followup_question (Some sel) trimmed))])
           (page_acts
              [PreventDefault;
               UpdateHighlightMessages
                 (fun prev => prev ++ [ {| role := user; content := trimmed |} ]);
               SetHighlightInput []] w))
    /\ forall settled w',
        run_page (k settled) w' = page_acts (followup_reply settled) w'.
Proof.
  intros Hs Hne Ht trimmed.
  destruct (handleHighlightSubmit_run env w sel Hs Hne Ht) as (k & Hrun & Hk).
  exists k. split; [|exact Hk].
  unfold step, handle. rewrite Hs. cbn [truthy_opt].
  apply truthy_true in Hne. rewrite Hne.
  rewrite Hrun. apply commit_same. reflexivity.
Qed.

(* ===================================================================== *)
(** ** Uploads *)
(* ===================================================================== *)

Lemma managed_at (tr : list Obs) (n : nat) :
  managed tr ->
  (size (alive (drop n tr)) <= 1)%nat
  /\ match tr !! n with
     | Some (Created _ _) => alive (drop (S n) tr) = ∅
     | _ => True
     end.
Proof.
  revert tr. induction n as [|n IH]; intros tr Hm.
  - split; [exact (managed_size _ Hm)|].
    destruct tr as [|o tr]; [exact I|].
    destruct Hm as (_ & _ & Ho). destruct o; try exact I. exact Ho.
  - destruct tr as [|o tr].
    + split; [exact (managed_size _ Hm) | exact I].
    + destruct Hm as (Hm & _ & _). exact (IH tr Hm).
Qed.

(** What a change of file leaves in the log, the latest effect first:
    the handler, then the cleanup of the previous render. *)
Lemma step_FileChange_trace (env : option jsstring) (file : File)
    (rest : list File) (w : World) :
  let w' := step env w (FileChange (Some (file :: rest))) in
  let id := nextRequest w in
  let body := JObj [(lit "question", JStr (overview_question (name file)));
                    (lit "file_name", JStr (name file))] in
  let url := template [BACKEND_URL env; lit "/api/rag/overview"] in
  exists cleanup_log revoke_log,
    trace w'
    = cleanup_log
      ++ Requested id url (callRAG_init body)
      :: [ PageDid (ConsoleLog [LStr (lit "Calling RAG backend:"); LStr url;
                                LStr (LF ++ lit "body:"); LVal body]);
           PageDid (SetOverviewText []);
           PageDid (SetOverviewError None);
           PageDid (SetOverviewLoading true);
           PageDid (SetHighlightInput []);
           PageDid (SetHighlightMessages []);
           PageDid (SetSelectedText None);
           PageDid (SetCurrentFileName (Some (name file))) ]
      ++ ViewerDid (OnFileLoaded (name file))
      :: [ PageDid (SetHighlightInput []);
           PageDid (SetHighlightMessages []);
           PageDid (SetSelectedText None);
           ViewerDid OnClearSelection;
           ViewerDid (SetHighlightRect None) ]
      ++ [ ViewerDid (SetFileUrl (Some (fresh_url w)));
           Created (fresh_url w) file ]
      ++ revoke_log
      ++ [ ViewerDid (SetFileObj (Some file)) ]
      ++ trace w
    /\ (cleanup_log = [] \/ exists url, cleanup_log = [ViewerDid (RevokeObjectURL url)])
    /\ revoke_log = match fileUrl (viewer w) with
                    | Some old => [ViewerDid (RevokeObjectURL old)]
                    | None => []
                    end.
Proof.
  intros w' id body url. subst w'. unfold step.
  rewrite (handle_FileChange_some env (Some (file :: rest)) file w eq_refl).
  match goal with
  | |- context [commit env (viewer w) ?x] =>
      destruct (commit_cases env (viewer w) x) as [-> | ->]
  end.
  - exists [].
    destruct (fileUrl (viewer w)) as [old|].
    + exists [ViewerDid (RevokeObjectURL old)].
      split; [reflexivity|]. split; [left|]; reflexivity.
    + exists []. split; [reflexivity|]. split; [left|]; reflexivity.
  - destruct (fileUrl (viewer w)) as [old|].
    + exists [ViewerDid (RevokeObjectURL old)],
             [ViewerDid (RevokeObjectURL old)].
      split; [reflexivity|]. split; [right; eauto|reflexivity].
    + exists [], []. split; [reflexivity|]. split; [left|]; reflexivity.
Qed.

Lemma revoke_opt_frame (o : option ObjectURL) (w : World) :
  page (revoke_opt o w) = page w
  /\ viewer (revoke_opt o w) = viewer w
  /\ pending (revoke_opt o w) = pending w
  /\ nextRequest (revoke_opt o w) = nextRequest w.
Proof. destruct o; repeat split. Qed.

(** What a change of file leaves in the cells, and in flight. *)
Lemma step_FileChange_state (env : option jsstring) (file : File)
    (rest : list File) (w : World) :
  let w' := step env w (FileChange (Some (file :: rest))) in
  page w'
  = {| overviewText := [];
       overviewLoading := true;
       overviewError := None;
       currentFileName := Some (name file);
       selectedText := None;
       highlightMessages := [];
       highlightInput := [] |}
  /\ viewer w'
     = {| fileObj := Some file;
          fileUrl := Some (fresh_url w);
          numPages := numPages (viewer w);
          highlightRect := None |}
  /\ exists k : FetchSettled -> Prog PageE unit,
       pending w' = <[nextRequest w := k]> (pending w)
       /\ forall settled w0,
            run_page (k settled) w0 = page_acts (overview_reply settled) w0.
Proof.
  intros w'. subst w'. unfold step.
  rewrite (handle_FileChange_some env (Some (file :: rest)) file w eq_refl).
  rewrite handleFileLoaded_run.
  match goal with
  | |- context [run_page (fetchOverviewForFile env ?n) ?x] =>
      destruct (fetchOverviewForFile_run env n x) as (k & -> & Hk)
  end.
  match goal with
  | |- context [commit env (viewer w) ?x] =>
      destruct (commit_cases env (viewer w) x) as [-> | ->];
      [|destruct (revoke_opt_frame (fileUrl (viewer w)) x)
          as (-> & -> & -> & _)]
  end.
  all: destruct (fileUrl (viewer w)) as [old|].
  all: split; [reflexivity|]; split; [reflexivity|].
  all: exists k; split; [reflexivity | exact Hk].
Qed.

(* ===================================================================== *)
(** ** The properties of the specification *)
(* ===================================================================== *)



(** C2.  In a state the page can be in, with a selection (not null) and
    an input that does not trim to the empty string, submitting the
    follow-up form appends the user message with the trimmed text at once,
    while the request is still in flight; the prompt of that request
    embeds the selected text and the trimmed question; and whenever the
    request settles, exactly one assistant message is appended: the answer
    of the backend, or the fixed apology. *)
Theorem followup_answered (env : option jsstring) (sel : jsstring)
    (w : World) :
  reachable env w ->
  selectedText (page w) = Some sel ->
  trim (highlightInput (page w)) <> [] ->
  let trimmed := trim (highlightInput (page w)) in
  let id := nextRequest w in
  let w1 := step env w Submit in
  highlightMessages (page w1)
  = highlightMessages (page w) ++ [ {| role := user; content := trimmed |} ]
  /\ is_Some (pending w1 !! id)
  /\ (exists question,
        List.hd_error (trace w1)
        = Some (Requested id
                  (template [BACKEND_URL env; lit "/api/rag/highlight"])
                  (callRAG_init (JObj [(lit "question", JStr question)])))
        /\ embeds question sel
        /\ embeds question trimmed)
  /\ forall settled w',
       pending w' !! id = pending w1 !! id ->
       highlightMessages (page (step env w' (Settle id settled)))
       = highlightMessages (page w') ++ [followup_answer settled].
Proof.
  intros Hreach Hs Ht trimmed id w1.
  assert (Hne : sel <> []).
  { intros ->. apply (inv_selected _ (reachable_Inv env w Hreach)), Hs. }
  destruct (step_Submit_accepted env w sel Hs Hne Ht) as (k & Hw1 & Hk).
  subst w1. rewrite Hw1. fold trimmed. fold id.
  split; [reflexivity|]. split; [|split].
  - exists k. apply lookup_insert_eq.
  - exists (followup_question (Some sel) trimmed).
    split; [reflexivity|]. apply followup_question_embeds.
  - intros settled w' Hp.
    assert (Hk' : pending w' !! id = Some k).
    { rewrite Hp. apply lookup_insert_eq. }
    rewrite (step_Settle env id settled k (followup_reply settled) w' Hk')
      by (intros w0; apply Hk).
    rewrite page_acts_page, followup_reply_page. reflexivity.
Qed.

(** C3, as the code has it.  [callRAG] logs the call and sends one
    request.  Once the request has settled it sends nothing more: it
    throws what [fetch] rejected with; on a status outside 200-299 it logs
    the status and the body and throws "RAG request failed: <status>"; on
    a status in 200-299 it returns the parsed body, and throws what
    [resp.json()] rejects with when the body is not JSON. *)
Theorem callRAG_settles (env : option jsstring) (path : jsstring)
    (body : JsValue) (w : World) :
  exists k : FetchSettled -> Prog PageE RAGResponse,
    exec_page (callRAG env path body) w
    = (issue (template [BACKEND_URL env; path]) (callRAG_init body)
         (page_do (ConsoleLog [LStr (lit "Calling RAG backend:");
                               LStr (template [BACKEND_URL env; path]);
                               LStr (LF ++ lit "body:"); LVal body]) w),
       Parked (nextRequest w) k)
    /\ forall settled w',
        exec_page (k settled) w'
        = match settled with
          | inl err => (w', Thrown err)
          | inr resp =>
              if ok resp then
                match json resp with
                | inr parsed => (w', Finished parsed)
                | inl err => (w', Thrown err)
                end
              else
                (page_do (ConsoleError [LStr (lit "RAG HTTP error:");
                                        LNum (status resp);
                                        LStr (text resp)]) w',
                 Thrown (Error (template [lit "RAG request failed: ";
                                          number_to_string (status resp)])))
          end.
Proof.
  destruct (callRAG_exec env path body w) as (k & Hrun & Hk).
  exists k. split; [exact Hrun|].
  intros settled w'. rewrite Hk.
  unfold callRAG_log, callRAG_result.
  destruct settled as [e|resp]; [reflexivity|].
  destruct (ok resp); [destruct (json resp)|]; reflexivity.
Qed.

(** On a response with status 204 and an empty body, which is not JSON,
    [callRAG] throws although the status is successful: throwing is not
    equivalent to a status outside 200-299. *)
Lemma callRAG_raises_on_2xx :
  let resp :=
    {| status := 204; text := [];
       json := inl (SyntaxError (lit "Unexpected end of JSON input")) |} in
  ~ ((exists err,
        snd (await_with (inr resp)
               (callRAG None (lit "/api/rag/overview") JNull) World_init)
        = Thrown err)
     <-> ok resp = false).
Proof.
  intros resp [H _].
  assert (Hok : ok resp = true) by reflexivity.
  rewrite H in Hok; [discriminate|].
  eexists. reflexivity.
Qed.


(** C5.  A pointer release over no selection, a collapsed one or one made
    of white space only changes nothing and calls no prop, whatever the
    props are.  A follow-up whose input trims to the empty string, or
    submitted with no selection, changes no cell and sends nothing: all
    the handler does is [preventDefault]. *)
Theorem blank_input_ignored (env : option jsstring) (p : PDFInnerProps)
    (w : World) :
  (forall selection container,
     match selection with
     | None => True
     | Some s => isCollapsed s = true \/ blank (toString s) = true
     end ->
     run_viewer p (handleMouseUp selection container) w = w
     /\ step env w (MouseUp selection container) = w)
  /\ (trim (highlightInput (page w)) = [] \/ selectedText (page w) = None ->
      let w' := run_page (handleHighlightSubmit env (page w)) w in
      page w' = page w
      /\ viewer w' = viewer w
      /\ live w' = live w
      /\ pending w' = pending w
      /\ nextRequest w' = nextRequest w
      /\ trace w' = PageDid PreventDefault :: trace w).
Proof.
  split.
  - intros selection container H.
    assert (H' : match selection with
                 | None => True
                 | Some s => isCollapsed s = true \/ trim (toString s) = []
                 end \/ container = None).
    { left. destruct selection as [s|]; [|exact I].
      destruct H as [H|H]; [left; exact H | right].
      apply trim_blank_iff, H. }
    split.
    + apply handleMouseUp_ignored, H'.
    + unfold step, handle. rewrite handleMouseUp_ignored by exact H'.
      apply commit_same. reflexivity.
  - intros H w'. subst w'.
    rewrite handleHighlightSubmit_ignored.
    + repeat split.
    + destruct H as [H|H]; [left; exact H | right].
      rewrite H. reflexivity.
Qed.

(** C6.  In the log of any sequence of events (the latest effect first,
    so that [drop n] is the log up to some moment) at most one object URL
    is alive at every moment, and an object URL is only created when none
    is alive: the previous one was revoked before.  The URLs the browser
    holds are those of the log, and unmounting leaves none. *)
Theorem one_object_url (env : option jsstring) (evs : list Event) (n : nat) :
  let w := run env evs World_init in
  (size (alive (drop n (trace w))) <= 1)%nat
  /\ match trace w !! n with
     | Some (Created _ _) => alive (drop (S n) (trace w)) = ∅
     | _ => True
     end
  /\ live w = alive (trace w)
  /\ live (unmount env w) = ∅.
Proof.
  intros w.
  assert (HI : Inv w) by (apply run_Inv, Inv_init).
  destruct (managed_at (trace w) n (inv_managed _ HI)) as [H1 H2].
  split; [exact H1|]. split; [exact H2|]. split.
  - symmetry. apply HI.
  - unfold unmount. rewrite cleanup_run. apply revoke_held_empty, HI.
Qed.

(** C7.  When the picker yields no file the handler changes nothing and
    calls no prop.  When it yields one, the handler clears the highlight
    rectangle, then calls the selection-cleared prop (the page resets its
    highlight cells), then calls the file-loaded prop with the name of
    the new file; the log has the latest effect first. *)
Theorem file_change_clears_then_announces (env : option jsstring)
    (w : World) :
  step env w (FileChange None) = w
  /\ step env w (FileChange (Some [])) = w
  /\ forall file rest,
       let w' := step env w (FileChange (Some (file :: rest))) in
       highlightRect (viewer w') = None
       /\ exists later earlier,
            trace w'
            = later
              ++ [ ViewerDid (OnFileLoaded (name file));
                   PageDid (SetHighlightInput []);
                   PageDid (SetHighlightMessages []);
                   PageDid (SetSelectedText None);
                   ViewerDid OnClearSelection;
                   ViewerDid (SetHighlightRect None) ]
              ++ earlier ++ trace w.
Proof.
  split; [|split].
  - unfold step. rewrite handle_FileChange_none by reflexivity.
    apply commit_same. reflexivity.
  - unfold step. rewrite handle_FileChange_none by reflexivity.
    apply commit_same. reflexivity.
  - intros file rest w'. split.
    + destruct (step_FileChange_state env file rest w) as (_ & Hv & _).
      subst w'. rewrite Hv. reflexivity.
    + destruct (step_FileChange_trace env file rest w)
        as (cleanup_log & revoke_log & Ht & _ & _).
      subst w'. rewrite Ht.
      match goal with
      | |- context [cleanup_log ++ ?r :: ?sync ++ ?l :: ?clear ++ ?up
                      ++ revoke_log ++ ?fo ++ trace w] =>
          exists (cleanup_log ++ r :: sync), (up ++ revoke_log ++ fo)
      end.
      rewrite <- !app_assoc. reflexivity.
Qed.

(** C8.  A selection-cleared event leaves the selected text null, the
    conversation empty and the input empty, and sends nothing.  A
    selection-made event leaves the new text as the selected text, the
    conversation and the input empty, and its request in flight.  Whatever
    the conversation held before is gone in both cases. *)
Theorem selection_reset (env : option jsstring) (text : jsstring)
    (w : World) :
  let cleared := run_page handleClearSelection w in
  let selected := run_page (handleSelection env text) w in
  (selectedText (page cleared) = None
   /\ highlightMessages (page cleared) = []
   /\ highlightInput (page cleared) = []
   /\ pending cleared = pending w)
  /\ (selectedText (page selected) = Some text
      /\ highlightMessages (page selected) = []
      /\ highlightInput (page selected) = []
      /\ exists k, pending selected = <[nextRequest w := k]> (pending w)).
Proof.
  intros cleared selected. subst cleared selected.
  rewrite handleClearSelection_run.
  destruct (handleSelection_run env text w) as (k & -> & _).
  repeat split. exists k. reflexivity.
Qed.

(** C9.  When the first request of a selection settles, the conversation
    becomes the one assistant message, whatever it held: a follow-up
    submitted while that request was in flight has its user message in
    the conversation until then, and no longer after. *)
Theorem initial_reply_overwrites (env : option jsstring) (s : Selection)
    (c : Container) (value : jsstring) (w : World) :
  isCollapsed s = false ->
  trim (toString s) <> [] ->
  trim value <> [] ->
  let id := nextRequest w in
  let w1 := step env w (MouseUp (Some s) (Some c)) in
  let w2 := run env [InputChange value; Submit] w1 in
  (forall settled w',
     pending w' !! id = pending w1 !! id ->
     highlightMessages (page (step env w' (Settle id settled)))
     = [explanation settled])
  /\ highlightMessages (page w2) = [ {| role := user; content := trim value |} ]
  /\ is_Some (pending w2 !! id)
  /\ forall settled,
       highlightMessages (page (step env w2 (Settle id settled)))
       = [explanation settled].
Proof.
  intros Hc Ht Hv id w1 w2.
  destruct (step_MouseUp_selected env s c w Hc Ht) as (k & Hw1 & Hk).
  assert (Hp1 : pending w1 !! id = Some k).
  { subst w1. rewrite Hw1. apply lookup_insert_eq. }
  assert (Hall : forall settled w',
             pending w' !! id = pending w1 !! id ->
             highlightMessages (page (step env w' (Settle id settled)))
             = [explanation settled]).
  { intros settled w' Hp. rewrite Hp1 in Hp.
    rewrite (step_Settle env id settled k (selection_reply settled) w' Hp)
      by (intros w0; apply Hk).
    rewrite page_acts_page, selection_reply_page. reflexivity. }
  assert (Hpage1 : page w1
                   = {| overviewText := overviewText (page w);
                        overviewLoading := overviewLoading (page w);
                        overviewError := overviewError (page w);
                        currentFileName := currentFileName (page w);
                        selectedText := Some (trim (toString s));
                        highlightMessages := [];
                        highlightInput := [] |}).
  { subst w1. rewrite Hw1. reflexivity. }
  assert (Hn1 : nextRequest w1 = S id).
  { subst w1. rewrite Hw1. reflexivity. }
  assert (Hw1' : step env w1 (InputChange value)
                 = page_acts [SetHighlightInput value] w1).
  { apply step_InputChange. rewrite Hpage1. cbn [selectedText truthy_opt].
    apply truthy_true, Ht. }
  set (w1' := page_acts [SetHighlightInput value] w1) in *.
  assert (Hpage1' : page w1'
                    = {| overviewText := overviewText (page w);
                         overviewLoading := overviewLoading (page w);
                         overviewError := overviewError (page w);
                         currentFileName := currentFileName (page w);
                         selectedText := Some (trim (toString s));
                         highlightMessages := [];
                         highlightInput := value |}).
  { unfold w1'. rewrite page_acts_page, Hpage1. reflexivity. }
  destruct (step_Submit_accepted env w1' (trim (toString s)))
    as (k' & Hw2 & _).
  { rewrite Hpage1'. reflexivity. }
  { exact Ht. }
  { rewrite Hpage1'. exact Hv. }
  assert (Hw2' : w2 = step env w1' Submit).
  { subst w2. cbn [run List.fold_left]. rewrite Hw1'. reflexivity. }
  assert (Hp2 : pending w2 !! id = pending w1 !! id).
  { rewrite Hw2', Hw2.
    cbn [pending with_pending callRAG_request issue log page_do with_page
         page_acts List.fold_left].
    apply lookup_insert_ne.
    change (nextRequest w1 <> id). rewrite Hn1. lia. }
  split; [exact Hall|]. split; [|split].
  - rewrite Hw2', Hw2.
    cbn [page with_pending callRAG_request issue log page_do with_page
         page_acts List.fold_left page_apply highlightMessages].
    rewrite Hpage1'. reflexivity.
  - rewrite Hp2, Hp1. eexists. reflexivity.
  - intros settled. apply Hall, Hp2.
Qed.

(** C10.  The file-loaded prop is called, and the overview request sent,
    inside the handler of the file input, before the document is parsed:
    when the change event has been handled the request is in flight.  A
    load error that comes later is logged and changes nothing else, so
    that the request settles into the overview cells as for any file. *)
Theorem overview_requested_before_parse (env : option jsstring)
    (file : File) (rest : list File) (error : JsError) (w : World) :
  let id := nextRequest w in
  let body := JObj [(lit "question", JStr (overview_question (name file)));
                    (lit "file_name", JStr (name file))] in
  let url := template [BACKEND_URL env; lit "/api/rag/overview"] in
  let w1 := step env w (FileChange (Some (file :: rest))) in
  let w2 := step env w1 (DocumentLoadError error) in
  (exists later between earlier,
     trace w1
     = later ++ Requested id url (callRAG_init body)
         :: between ++ ViewerDid (OnFileLoaded (name file))
         :: earlier ++ trace w)
  /\ is_Some (pending w1 !! id)
  /\ (page w2 = page w1
      /\ viewer w2 = viewer w1
      /\ live w2 = live w1
      /\ pending w2 = pending w1
      /\ trace w2
         = ViewerDid (ViewerConsoleError [LStr (lit "PDF load error:");
                                          LErr error]) :: trace w1)
  /\ forall settled,
       let w3 := step env w2 (Settle id settled) in
       overviewLoading (page w3) = false
       /\ match backend_reply settled with
          | Some res => overviewText (page w3) = answer res
                        /\ overviewError (page w3) = None
          | None => overviewError (page w3) = Some OVERVIEW_ERROR
          end.
Proof.
  intros id body url w1 w2.
  destruct (step_FileChange_state env file rest w) as (Hp & Hv & k & Hk & Hr).
  fold w1 in Hp, Hv, Hk.
  assert (Hw2 : w2 = viewer_do (ViewerConsoleError
                                  [LStr (lit "PDF load error:"); LErr error])
                       w1).
  { subst w2. unfold step, handle.
    destruct (fileUrl (viewer w1)) eqn:Hf; [|rewrite Hv in Hf; discriminate].
    apply commit_same. reflexivity. }
  split; [|split; [|split]].
  - destruct (step_FileChange_trace env file rest w)
      as (cleanup_log & revoke_log & Ht & _ & _).
    fold w1 in Ht. rewrite Ht.
    match goal with
    | |- context [cleanup_log ++ ?r :: ?sync ++ ?l :: ?clear ++ ?up
                    ++ revoke_log ++ ?fo ++ trace w] =>
        exists cleanup_log, sync, (clear ++ up ++ revoke_log ++ fo)
    end.
    rewrite <- !app_assoc. reflexivity.
  - rewrite Hk. exists k. apply lookup_insert_eq.
  - rewrite Hw2. repeat split.
  - intros settled w3. subst w3.
    rewrite (step_Settle env id settled k (overview_reply settled)).
    + rewrite page_acts_page, overview_reply_page.
      replace (page (with_pending (delete id) w2)) with (page w1)
        by (rewrite Hw2; reflexivity).
      rewrite Hp.
      destruct (backend_reply settled); repeat split.
    + rewrite Hw2.
      change (pending w1 !! id = Some k).
      rewrite Hk. apply lookup_insert_eq.
    + intros w0. apply Hr.
Qed.

(* ===================================================================== *)
(** ** Scenarios *)
(* ===================================================================== *)

(** Uploading "policy.pdf": the overview is loading under that name, then
    ready with the text of the backend. *)
Example upload_then_ready :
  page (run None [FileChange (Some [sample_file])] World_init)
  = {| overviewText := [];
       overviewLoading := true;
       overviewError := None;
       currentFileName := Some (lit "policy.pdf");
       selectedText := None;
       highlightMessages := [];
       highlightInput := [] |}
  /\ page (run None [FileChange (Some [sample_file]); Settle 0 summary_reply]
             World_init)
     = {| overviewText := lit "This is a Summary of Benefits...";
          overviewLoading := false;
          overviewError := None;
          currentFileName := Some (lit "policy.pdf");
          selectedText := None;
          highlightMessages := [];
          highlightInput := [] |}.
Proof. split; vm_compute; reflexivity. Qed.

(** The backend answers 500 to the overview request: the fixed error
    string, loading cleared. *)
Example overview_http_500 :
  let w := run None [FileChange (Some [sample_file]); Settle 0 server_error]
             World_init in
  overviewError (page w) = Some OVERVIEW_ERROR
  /\ overviewLoading (page w) = false
  /\ overviewText (page w) = [].
Proof. repeat split; vm_compute; reflexivity. Qed.

(** Selecting " Coinsurance: 20% after deductible ": the pane shows the
    trimmed text, the rectangle follows the scroll offset, and the reply
    is the one assistant message. *)
Example select_then_explained :
  let w := run None [FileChange (Some [sample_file]);
                     MouseUp (Some sample_selection) (Some sample_container);
                     Settle 1 summary_reply]
             World_init in
  selectedText (page w) = Some (lit "Coinsurance: 20% after deductible")
  /\ highlightMessages (page w)
     = [ {| role := assistant;
            content := lit "This is a Summary of Benefits..." |} ]
  /\ highlightRect (viewer w)
     = Some {| top := 240; left := 16; width := 300; height := 18 |}.
Proof. repeat split; vm_compute; reflexivity. Qed.

(** Two uploads in a row: one object URL at the end, and both overview
    requests in flight (neither is cancelled). *)
Example two_uploads :
  let w := run None [FileChange (Some [sample_file]);
                     FileChange (Some [sample_file])]
             World_init in
  elements (live w) = [ {| serial := 1 |} ]
  /\ fileUrl (viewer w) = Some {| serial := 1 |}
  /\ size (pending w) = 2%nat.
Proof. repeat split; vm_compute; reflexivity. Qed.

(* ===================================================================== *)
(** ** The properties at sample inputs *)
(* ===================================================================== *)


(** At the sample tab the typed question, trimmed, joins the conversation
    on submission. *)
Lemma followup_answered_witness :
  reachable None sample_typed
  /\ selectedText (page sample_typed)
     = Some (lit "Coinsurance: 20% after deductible")
  /\ trim (highlightInput (page sample_typed)) <> []
  /\ highlightMessages (page (step None sample_typed Submit))
     = highlightMessages (page sample_typed)
       ++ [ {| role := user;
               content := trim (highlightInput (page sample_typed)) |} ].
Proof.
  assert (H1 : reachable None sample_typed).
  { exists [FileChange (Some [sample_file]);
            MouseUp (Some sample_selection) (Some sample_container);
            InputChange sample_question].
    unfold sample_typed. reflexivity. }
  assert (H2 : selectedText (page sample_typed)
               = Some (lit "Coinsurance: 20% after deductible"))
    by (vm_compute; reflexivity).
  assert (H3 : trim (highlightInput (page sample_typed)) <> [])
    by (vm_compute; discriminate).
  split; [exact H1|]. split; [exact H2|]. split; [exact H3|].
  exact (proj1 (followup_answered None _ sample_typed H1 H2 H3)).
Defined.


(** A blank selection and a blank input, both ignored. *)
Lemma blank_input_ignored_witness :
  (isCollapsed blank_selection = true
   \/ blank (toString blank_selection) = true)
  /\ step None sample_selected
       (MouseUp (Some blank_selection) (Some sample_container))
     = sample_selected
  /\ (trim (highlightInput (page sample_blank_typed)) = []
      \/ selectedText (page sample_blank_typed) = None)
  /\ page (run_page (handleHighlightSubmit None (page sample_blank_typed))
             sample_blank_typed)
     = page sample_blank_typed.
Proof.
  assert (H1 : isCollapsed blank_selection = true
               \/ blank (toString blank_selection) = true)
    by (right; reflexivity).
  assert (H2 : trim (highlightInput (page sample_blank_typed)) = []
               \/ selectedText (page sample_blank_typed) = None)
    by (left; vm_compute; reflexivity).
  split; [exact H1|]. split; [|split; [exact H2|]].
  - exact (proj2 (proj1 (blank_input_ignored None (props None)
                           sample_selected)
                    (Some blank_selection) (Some sample_container) H1)).
  - exact (proj1 (proj2 (blank_input_ignored None (props None)
                           sample_blank_typed) H2)).
Defined.

(** At the sample selection the question typed while the first request
    is in flight is gone once that request settles. *)
Lemma initial_reply_overwrites_witness :
  isCollapsed sample_selection = false
  /\ trim (toString sample_selection) <> []
  /\ trim sample_question <> []
  /\ highlightMessages
       (page (run None [InputChange sample_question; Submit]
                (step None World_init
                   (MouseUp (Some sample_selection) (Some sample_container)))))
     = [ {| role := user; content := trim sample_question |} ]
  /\ highlightMessages
       (page (step None
                (run None [InputChange sample_question; Submit]
                   (step None World_init
                      (MouseUp (Some sample_selection)
                         (Some sample_container))))
                (Settle (nextRequest World_init) network_failure)))
     = [explanation network_failure].
Proof.
  assert (H1 : isCollapsed sample_selection = false) by reflexivity.
  assert (H2 : trim (toString sample_selection) <> [])
    by (vm_compute; discriminate).
  assert (H3 : trim sample_question <> [])
    by (vm_compute; discriminate).
  split; [exact H1|]. split; [exact H2|]. split; [exact H3|].
  destruct (initial_reply_overwrites None sample_selection sample_container
              sample_question World_init H1 H2 H3)
    as (_ & Huser & _ & Hlost).
  split; [exact Huser | exact (Hlost network_failure)].
Defined.

(* ===================================================================== *)
(** ** More on trimming *)
(* ===================================================================== *)

Lemma trimStart_result (s : jsstring) :
  trimStart s = [] \/ starts_solid (trimStart s) = true.
Proof.
  induction s as [|u s IH]; [left; reflexivity|].
  cbn [trimStart]. destruct (is_ws u) eqn:Hu; [exact IH|].
  right. cbn [starts_solid]. rewrite Hu. reflexivity.
Qed.

Lemma starts_solid_app_inv (s t : jsstring) :
  s <> [] -> starts_solid (s ++ t) = true -> starts_solid s = true.
Proof. destruct s; [congruence|auto]. Qed.

(** Trimming twice is trimming once. *)
Lemma trim_idempotent (s : jsstring) : trim (trim s) = trim s.
Proof.
  set (A := trimStart s).
  set (B := trimStart (List.rev A)).
  assert (Ht : trim s = List.rev B) by reflexivity.
  rewrite Ht.
  destruct (trimStart_result (List.rev A)) as [HB|HB]; fold B in HB.
  { rewrite HB. reflexivity. }
  assert (HBne : B <> []) by (intros E; rewrite E in HB; discriminate).
  destruct (trimStart_split (List.rev A)) as (pre & Hsplit & _).
  fold B in Hsplit.
  assert (HA : A = List.rev B ++ List.rev pre).
  { rewrite <- (rev_involutive A), Hsplit, rev_app_distr. reflexivity. }
  assert (HrB : List.rev B <> []).
  { intros E. apply HBne. rewrite <- (rev_involutive B), E. reflexivity. }
  assert (Hsolid : starts_solid (List.rev B) = true).
  { apply (starts_solid_app_inv _ (List.rev pre) HrB). rewrite <- HA.
    destruct (trimStart_result s) as [E|E]; fold A in E; [|exact E].
    rewrite E in HA. symmetry in HA. apply app_eq_nil in HA as [HA _].
    contradiction. }
  unfold trim, trimEnd.
  rewrite (trimStart_solid _ Hsolid), rev_involutive,
    (trimStart_solid _ HB).
  reflexivity.
Qed.

(* ===================================================================== *)
(** ** What every reachable state satisfies, continued *)
(* ===================================================================== *)

Ltac world_simpl :=
  cbn [page viewer live nextUrl pending nextRequest trace
       with_page with_viewer with_live with_pending log page_do viewer_do
       issue mint callRAG_request page_acts List.fold_left
       page_apply viewer_apply live_apply revoke_opt
       overviewText overviewLoading overviewError currentFileName
       selectedText highlightMessages highlightInput
       fileObj fileUrl numPages highlightRect].

Lemma Forall_page_log (P : Obs -> Prop) (acts : list PageAction)
    (tr : list Obs) :
  (forall a, P (PageDid a)) -> Forall P tr ->
  Forall P (List.rev (List.map PageDid acts) ++ tr).
Proof.
  intros HP Htr. apply Forall_app. split; [|exact Htr].
  apply Forall_forall. intros o Ho.
  apply list_elem_of_In, in_rev, in_map_iff in Ho as (a & <- & _). apply HP.
Qed.

Lemma callRAG_request_overview (env : option jsstring)
    (question fileName : jsstring) :
  rag_request env (template [BACKEND_URL env; lit "/api/rag/overview"])
    (callRAG_init (JObj [(lit "question", JStr question);
                         (lit "file_name", JStr fileName)])).
Proof.
  split; [reflexivity|]. split; [reflexivity|].
  left. split; [reflexivity|]. exists question, fileName. reflexivity.
Qed.

Lemma callRAG_request_highlight (env : option jsstring) (question : jsstring) :
  rag_request env (template [BACKEND_URL env; lit "/api/rag/highlight"])
    (callRAG_init (JObj [(lit "question", JStr question)])).
Proof.
  split; [reflexivity|]. split; [reflexivity|].
  right. split; [reflexivity|]. exists question. reflexivity.
Qed.

Lemma Sound_init (env : option jsstring) : Sound env World_init.
Proof.
  constructor.
  - intros i k H. cbn [World_init pending] in H.
    rewrite lookup_empty in H. discriminate.
  - constructor.
  - constructor.
  - split; reflexivity.
  - discriminate.
  - split; reflexivity.
  - reflexivity.
  - reflexivity.
  - discriminate.
  - constructor.
  - discriminate.
Qed.

Ltac log_ok :=
  repeat first
    [ exact I
    | assumption
    | apply Forall_nil
    | apply callRAG_request_overview
    | apply callRAG_request_highlight
    | apply List.Forall_cons
    | apply Forall_app; split ].

(** An event that leaves the viewer, the object URLs, the selection and
    the file name alone keeps [Sound] when the rest holds after it. *)
Lemma Sound_page_change (env : option jsstring) (w w' : World) :
  Sound env w ->
  viewer w' = viewer w -> live w' = live w -> nextUrl w' = nextUrl w ->
  Forall (request_ok env) (trace w') ->
  Forall caught (trace w') ->
  (forall id k, pending w' !! id = Some k ->
                (exists kind, replies_as kind k)
                /\ (id < nextRequest w')%nat) ->
  selectedText (page w') = selectedText (page w) ->
  currentFileName (page w') = currentFileName (page w) ->
  Forall user_ok (highlightMessages (page w')) ->
  (overviewLoading (page w') = true ->
   exists id k, pending w' !! id = Some k /\ replies_as OverviewReply k) ->
  Sound env w'.
Proof.
  intros [Hp Hr Hc Hs Ht Hf Hn Hl Hfr Hu Hlo] Hv Hli Hnu Hr' Hc' Hp' Hsel Hcfn
    Hu' Hlo'.
  constructor; rewrite ?Hv, ?Hli, ?Hnu, ?Hsel, ?Hcfn; assumption.
Qed.

Lemma user_ok_trimmed (s : jsstring) :
  trim s <> [] -> user_ok {| role := user; content := trim s |}.
Proof. intros H. split; [exact H | apply trim_idempotent]. Qed.

(** Sending one more request keeps those in flight, under their numbers. *)
Lemma pending_insert_ok (w : World) (kind : ReplyKind)
    (k : FetchSettled -> Prog PageE unit)
    (m : gmap nat (FetchSettled -> Prog PageE unit)) (n : nat) :
  (forall id k', m !! id = Some k' ->
                 (exists kind', replies_as kind' k') /\ (id < n)%nat) ->
  replies_as kind k ->
  forall id k', <[n := k]> m !! id = Some k' ->
                (exists kind', replies_as kind' k') /\ (id < S n)%nat.
Proof.
  intros Hm Hk id k' H.
  destruct (decide (n = id)) as [<-|Hne].
  - rewrite lookup_insert_eq in H. injection H as <-.
    split; [exists kind; exact Hk | lia].
  - rewrite lookup_insert_ne in H by exact Hne.
    destruct (Hm _ _ H). split; [assumption | lia].
Qed.

Lemma loading_insert_ok (kind : ReplyKind)
    (k : FetchSettled -> Prog PageE unit)
    (m : gmap nat (FetchSettled -> Prog PageE unit)) (n : nat) :
  (forall id k', m !! id = Some k' ->
                 (exists kind', replies_as kind' k') /\ (id < n)%nat) ->
  (exists id k', m !! id = Some k' /\ replies_as OverviewReply k') ->
  exists id k', <[n := k]> m !! id = Some k' /\ replies_as OverviewReply k'.
Proof.
  intros Hm (id & k' & Hl & Hk').
  exists id, k'. split; [|exact Hk'].
  rewrite lookup_insert_ne; [exact Hl|].
  destruct (Hm _ _ Hl). lia.
Qed.

Lemma Sound_InputChange (env : option jsstring) (value : jsstring)
    (w : World) :
  Sound env w -> Sound env (page_acts [SetHighlightInput value] w).
Proof.
  intros H. apply (Sound_page_change env w); try reflexivity; try apply H.
  - apply List.Forall_cons; [exact I | apply H].
  - apply List.Forall_cons; [exact I | apply H].
Qed.

Lemma Sound_Submit_ignored (env : option jsstring) (w : World) :
  Sound env w -> Sound env (page_do PreventDefault w).
Proof.
  intros H. apply (Sound_page_change env w); try reflexivity; try apply H.
  - apply List.Forall_cons; [exact I | apply H].
  - apply List.Forall_cons; [exact I | apply H].
Qed.

Lemma Sound_Submit (env : option jsstring) (w : World) :
  Sound env w -> Sound env (step env w Submit).
Proof.
  intros H.
  destruct (truthy_opt (selectedText (page w))) eqn:Hsel.
  2:{ unfold step, handle. rewrite Hsel. rewrite commit_same by reflexivity.
      exact H. }
  destruct (selectedText (page w)) as [sel|] eqn:Hs; [|discriminate].
  apply truthy_true in Hsel.
  destruct (trim (highlightInput (page w))) as [|u t] eqn:Ht.
  { unfold step, handle. rewrite Hs. cbn [truthy_opt].
    apply truthy_true in Hsel. rewrite Hsel.
    rewrite handleHighlightSubmit_ignored by (left; exact Ht).
    rewrite commit_same by reflexivity.
    apply Sound_Submit_ignored, H. }
  assert (Hne : trim (highlightInput (page w)) <> [])
    by (rewrite Ht; discriminate).
  destruct (step_Submit_accepted env w sel Hs Hsel Hne) as (k & -> & Hk).
  apply (Sound_page_change env w _ H); try reflexivity.
  - world_simpl. log_ok; apply H.
  - world_simpl. log_ok; apply H.
  - world_simpl.
    apply (pending_insert_ok w FollowupReply); [apply H | exact Hk].
  - world_simpl. apply Forall_app. split; [apply H|].
    apply List.Forall_cons; [|constructor].
    apply user_ok_trimmed, Hne.
  - world_simpl. intros Hl.
    apply (loading_insert_ok FollowupReply); [apply H|].
    apply (sound_loading _ _ H Hl).
Qed.

(** What the reply of each kind leaves in the cells. *)
Lemma reply_page (kind : ReplyKind) (settled : FetchSettled) (s : PageState) :
  let s' := List.fold_left (fun s a => page_apply a s) (reply kind settled) s in
  selectedText s' = selectedText s
  /\ currentFileName s' = currentFileName s
  /\ highlightInput s' = highlightInput s
  /\ match kind with
     | OverviewReply =>
         overviewLoading s' = false
         /\ highlightMessages s' = highlightMessages s
     | SelectionReply =>
         overviewLoading s' = overviewLoading s
         /\ highlightMessages s' = [explanation settled]
     | FollowupReply =>
         overviewLoading s' = overviewLoading s
         /\ highlightMessages s'
            = highlightMessages s ++ [followup_answer settled]
     end.
Proof.
  destruct kind; cbn [reply].
  - rewrite overview_reply_page. destruct (backend_reply settled);
      repeat split.
  - rewrite selection_reply_page. repeat split.
  - rewrite followup_reply_page. repeat split.
Qed.

Lemma Sound_Settle (env : option jsstring) (id : nat)
    (settled : FetchSettled) (w : World) :
  Sound env w -> Sound env (step env w (Settle id settled)).
Proof.
  intros H.
  destruct (pending w !! id) as [k|] eqn:Hk.
  2:{ unfold step, handle. rewrite Hk. rewrite commit_same by reflexivity.
      exact H. }
  destruct (sound_pending _ _ H _ _ Hk) as [[kind Hkind] _].
  rewrite (step_Settle env id settled k (reply kind settled) w Hk)
    by (intros w'; apply Hkind).
  set (w0 := with_pending (delete id) w).
  destruct (page_acts_frame (reply kind settled) w0)
    as (Hv & Hl & Hnu & Hpe & Hn).
  destruct (reply_page kind settled (page w)) as (Hsel & Hcfn & _ & Hkd).
  apply (Sound_page_change env w _ H).
  - rewrite Hv. reflexivity.
  - rewrite Hl. reflexivity.
  - rewrite Hnu. reflexivity.
  - rewrite page_acts_trace. apply Forall_page_log; [intros a; exact I|].
    apply H.
  - rewrite page_acts_trace. apply Forall_page_log; [intros a; exact I|].
    apply H.
  - rewrite Hpe, Hn. intros id' k'. unfold w0. world_simpl. intros Hl'.
    apply lookup_delete_Some in Hl' as [_ Hl'].
    exact (sound_pending _ _ H _ _ Hl').
  - rewrite page_acts_page. exact Hsel.
  - rewrite page_acts_page. exact Hcfn.
  - rewrite page_acts_page. change (page w0) with (page w).
    destruct kind; destruct Hkd as [_ ->].
    + apply H.
    + apply List.Forall_cons; [exact I | constructor].
    + apply Forall_app. split; [apply H|].
      apply List.Forall_cons; [exact I | constructor].
  - rewrite page_acts_page, Hpe. change (page w0) with (page w).
    intros Hload.
    assert (Hbefore : overviewLoading (page w) = true).
    { destruct kind; destruct Hkd as [Hlo _]; congruence. }
    destruct (sound_loading _ _ H Hbefore) as (id' & k' & Hl' & Hk').
    destruct (decide (id' = id)) as [->|Hne].
    + rewrite Hk in Hl'. injection Hl' as <-.
      destruct (reply_page OverviewReply settled (page w))
        as (_ & _ & _ & Hoff & _).
      destruct kind; destruct Hkd as [Hlo _].
      * congruence.
      * (* the same rest replies as an overview and as a selection *)
        exfalso.
        assert (E : page_acts (overview_reply settled) w
                    = page_acts (selection_reply settled) w).
        { transitivity (run_page (k settled) w);
            [symmetry; apply Hk' | apply Hkind]. }
        apply (f_equal (fun x => overviewLoading (page x))) in E.
        rewrite !page_acts_page in E. cbn beta in E.
        cbn [reply] in Hoff, Hlo. congruence.
      * exfalso.
        assert (E : page_acts (overview_reply settled) w
                    = page_acts (followup_reply settled) w).
        { transitivity (run_page (k settled) w);
            [symmetry; apply Hk' | apply Hkind]. }
        apply (f_equal (fun x => overviewLoading (page x))) in E.
        rewrite !page_acts_page in E. cbn beta in E.
        cbn [reply] in Hoff, Hlo. congruence.
    + exists id', k'. split; [|exact Hk'].
      unfold w0. world_simpl. rewrite lookup_delete_ne by congruence.
      exact Hl'.
Qed.

Lemma Sound_MouseUp (env : option jsstring) (selection : option Selection)
    (container : option Container) (w : World) :
  Sound env w -> Sound env (step env w (MouseUp selection container)).
Proof.
  intros H.
  assert (Hignored :
            match selection with
            | None => True
            | Some s => isCollapsed s = true \/ trim (toString s) = []
            end \/ container = None ->
            Sound env (step env w (MouseUp selection container))).
  { intros Hi. unfold step, handle. rewrite handleMouseUp_ignored by exact Hi.
    rewrite commit_same by reflexivity. exact H. }
  destruct selection as [s|]; [|apply Hignored; tauto].
  destruct container as [c|]; [|apply Hignored; tauto].
  destruct (isCollapsed s) eqn:Hc; [apply Hignored; tauto|].
  destruct (trim (toString s)) as [|u t] eqn:Ht; [apply Hignored; tauto|].
  assert (Hne : trim (toString s) <> []) by (rewrite Ht; discriminate).
  destruct (step_MouseUp_selected env s c w Hc Hne) as (k & -> & Hk).
  rewrite <- Ht in *. clear u t Ht.
  destruct H as [Hp Hr Hca Hs Htr Hf Hn Hl Hfr Hu Hlo].
  constructor; world_simpl.
  - apply (pending_insert_ok w SelectionReply); [exact Hp | exact Hk].
  - log_ok.
  - log_ok.
  - split; discriminate.
  - intros t0 E. injection E as <-. split; [exact Hne | apply trim_idempotent].
  - exact Hf.
  - exact Hn.
  - exact Hl.
  - exact Hfr.
  - constructor.
  - intros Hload. apply (loading_insert_ok SelectionReply); auto.
Qed.

Lemma step_MouseDown_background (env : option jsstring) (c : Container)
    (selection : option Selection) (w : World) :
  step env w (MouseDown TheContainer (Some c) selection)
  = (match selection with
     | Some _ => viewer_do RemoveAllRanges
     | None => fun w => w
     end)
      (page_acts [SetSelectedText None; SetHighlightMessages [];
                  SetHighlightInput []]
         (viewer_do OnClearSelection
            (viewer_do (SetHighlightRect None) w))).
Proof.
  unfold step. rewrite handle_MouseDown_background.
  rewrite handleClearSelection_run.
  apply commit_same. destruct selection; reflexivity.
Qed.

Lemma step_MouseDown_elsewhere (env : option jsstring) (target : Target)
    (container : option Container) (selection : option Selection)
    (w : World) :
  target = RenderedContent \/ container = None ->
  step env w (MouseDown target container selection) = w.
Proof.
  intros H. unfold step. rewrite handle_MouseDown_elsewhere by exact H.
  apply commit_same. reflexivity.
Qed.

Lemma Sound_MouseDown (env : option jsstring) (target : Target)
    (container : option Container) (selection : option Selection)
    (w : World) :
  Sound env w ->
  Sound env (step env w (MouseDown target container selection)).
Proof.
  intros H.
  destruct target, container as [c|];
    try (rewrite step_MouseDown_elsewhere by tauto; exact H).
  rewrite step_MouseDown_background.
  destruct H as [Hp Hr Hca Hs Htr Hf Hn Hl Hfr Hu Hlo].
  destruct selection; constructor; world_simpl;
    first [ assumption | solve [log_ok] | split; reflexivity | discriminate
          | constructor ].
Qed.

Lemma Sound_viewer_plain (env : option jsstring) (a : ViewerAction)
    (w : World) :
  Sound env w ->
  match a with
  | SetNumPages _ | ViewerConsoleError _ => True
  | _ => False
  end ->
  Sound env (viewer_do a w).
Proof.
  intros [Hp Hr Hca Hs Htr Hf Hn Hl Hfr Hu Hlo] Ha.
  destruct a; try contradiction; constructor; world_simpl;
    first [ assumption | solve [log_ok] ].
Qed.

(** What a change of file leaves of the object URLs and the counters. *)
Lemma step_FileChange_urls (env : option jsstring) (file : File)
    (rest : list File) (w : World) :
  live w = held (viewer w) ->
  (forall url, fileUrl (viewer w) = Some url -> (serial url < nextUrl w)%nat) ->
  let w' := step env w (FileChange (Some (file :: rest))) in
  live w' = {[ fresh_url w ]}
  /\ nextUrl w' = S (nextUrl w)
  /\ nextRequest w' = S (nextRequest w).
Proof.
  intros Hl Hfr w'. subst w'. unfold step.
  rewrite (handle_FileChange_some env (Some (file :: rest)) file w eq_refl).
  rewrite handleFileLoaded_run, handleClearSelection_run.
  match goal with
  | |- context [run_page (fetchOverviewForFile env ?n) ?x] =>
      destruct (fetchOverviewForFile_run env n x) as (k & -> & _)
  end.
  unfold held in Hl.
  match goal with
  | |- context [commit env (viewer w) ?x] =>
      destruct (commit_cases env (viewer w) x) as [-> | ->]
  end.
  all: destruct (fileUrl (viewer w)) as [old|] eqn:Hold.
  all: world_simpl; rewrite Hl.
  all: split; [|split; reflexivity].
  all: try (assert (Hne : old <> fresh_url w)
              by (intros ->; specialize (Hfr _ eq_refl);
                  cbn [fresh_url serial] in Hfr; lia)).
  all: clear -Hne || clear.
  all: set_solver.
Qed.

Lemma step_FileChange_none (env : option jsstring)
    (files : option (list File)) (w : World) :
  first_file files = None -> step env w (FileChange files) = w.
Proof.
  intros H. unfold step. rewrite handle_FileChange_none by exact H.
  apply commit_same. reflexivity.
Qed.

Lemma Sound_FileChange (env : option jsstring) (files : option (list File))
    (w : World) :
  Sound env w -> Sound env (step env w (FileChange files)).
Proof.
  intros H.
  destruct (first_file files) as [file|] eqn:Hf.
  2:{ rewrite step_FileChange_none by exact Hf. exact H. }
  destruct files as [[|file' rest]|]; try discriminate.
  injection Hf as ->.
  destruct (step_FileChange_state env file rest w) as (Hpage & Hview & k & Hk & Hr).
  destruct (step_FileChange_trace env file rest w)
    as (cleanup_log & revoke_log & Htr & Hcl & Hrl).
  destruct (step_FileChange_urls env file rest w
              (sound_live _ _ H) (sound_fresh _ _ H)) as (Hlive & Hnu & Hnr).
  cbv zeta in *.
  set (w' := step env w (FileChange (Some (file :: rest)))) in *.
  constructor; rewrite ?Hpage, ?Hview, ?Hlive, ?Hnu, ?Hnr, ?Hk.
  - apply (pending_insert_ok w OverviewReply); [apply H | exact Hr].
  - rewrite Htr, Hrl.
    pose proof (sound_requests _ _ H).
    destruct Hcl as [-> | [url ->]]; destruct (fileUrl (viewer w)); log_ok.
  - rewrite Htr, Hrl.
    pose proof (sound_caught _ _ H).
    destruct Hcl as [-> | [url ->]]; destruct (fileUrl (viewer w)); log_ok.
  - split; reflexivity.
  - discriminate.
  - split; discriminate.
  - reflexivity.
  - reflexivity.
  - intros url E. injection E as <-. cbn [fresh_url serial]. lia.
  - constructor.
  - intros _. exists (nextRequest w), k. split; [|exact Hr].
    apply lookup_insert_eq.
Qed.

Lemma step_Sound (env : option jsstring) (ev : Event) (w : World) :
  Sound env w -> Sound env (step env w ev).
Proof.
  intros H. destruct ev as [files|sel cont|target cont sel|n|err|v| |id settled].
  - apply Sound_FileChange, H.
  - apply Sound_MouseUp, H.
  - apply Sound_MouseDown, H.
  - unfold step, handle. destruct (fileUrl (viewer w));
      [|rewrite commit_same by reflexivity; exact H].
    rewrite commit_same by reflexivity.
    apply (Sound_viewer_plain env (SetNumPages n)); [exact H | exact I].
  - unfold step, handle. destruct (fileUrl (viewer w));
      [|rewrite commit_same by reflexivity; exact H].
    rewrite commit_same by reflexivity.
    apply (Sound_viewer_plain env (ViewerConsoleError _)); [exact H | exact I].
  - destruct (truthy_opt (selectedText (page w))) eqn:Hs.
    + rewrite step_InputChange by exact Hs. apply Sound_InputChange, H.
    + unfold step, handle. rewrite Hs. rewrite commit_same by reflexivity.
      exact H.
  - apply Sound_Submit, H.
  - apply Sound_Settle, H.
Qed.

Lemma run_Sound (env : option jsstring) (evs : list Event) (w : World) :
  Sound env w -> Sound env (run env evs w).
Proof.
  revert w. induction evs as [|ev evs IH]; intros w H; [exact H|].
  apply IH, step_Sound, H.
Qed.

Lemma reachable_Sound (env : option jsstring) (w : World) :
  reachable env w -> Sound env w.
Proof. intros [evs <-]. apply run_Sound, Sound_init. Qed.

(* ===================================================================== *)
(** ** Requests in flight *)
(* ===================================================================== *)

(** What an event does to the requests in flight: nothing, or it sends
    one more, or it is the one that settles. *)
Lemma step_pending (env : option jsstring) (ev : Event) (w : World) :
  Sound env w ->
  (pending (step env w ev) = pending w
   /\ nextRequest (step env w ev) = nextRequest w)
  \/ (exists k,
        pending (step env w ev) = <[nextRequest w := k]> (pending w)
        /\ nextRequest (step env w ev) = S (nextRequest w))
  \/ (exists id settled,
        ev = Settle id settled
        /\ pending (step env w ev) = delete id (pending w)
        /\ nextRequest (step env w ev) = nextRequest w).
Proof.
  intros H. destruct ev as [files|sel cont|target cont sel|n|err|v| |id settled].
  - destruct (first_file files) as [file|] eqn:Hf.
    2:{ rewrite step_FileChange_none by exact Hf. left. split; reflexivity. }
    destruct files as [[|file' rest]|]; try discriminate.
    injection Hf as ->.
    destruct (step_FileChange_state env file rest w) as (_ & _ & k & Hk & _).
    destruct (step_FileChange_urls env file rest w
                (sound_live _ _ H) (sound_fresh _ _ H)) as (_ & _ & Hnr).
    right. left. exists k. split; assumption.
  - assert (Hignored :
              match sel with
              | None => True
              | Some s => isCollapsed s = true \/ trim (toString s) = []
              end \/ cont = None ->
              step env w (MouseUp sel cont) = w).
    { intros Hi. unfold step, handle.
      rewrite handleMouseUp_ignored by exact Hi.
      apply commit_same. reflexivity. }
    destruct sel as [s|];
      [|rewrite Hignored by tauto; left; split; reflexivity].
    destruct cont as [c|];
      [|rewrite Hignored by tauto; left; split; reflexivity].
    destruct (isCollapsed s) eqn:Hc;
      [rewrite Hignored by tauto; left; split; reflexivity|].
    destruct (trim (toString s)) as [|u t] eqn:Ht;
      [rewrite Hignored by tauto; left; split; reflexivity|].
    assert (Hne : trim (toString s) <> []) by (rewrite Ht; discriminate).
    destruct (step_MouseUp_selected env s c w Hc Hne) as (k & -> & _).
    right. left. exists k. split; reflexivity.
  - left. destruct target, cont as [c|];
      try (rewrite step_MouseDown_elsewhere by tauto; split; reflexivity).
    rewrite step_MouseDown_background. destruct sel; split; reflexivity.
  - left. unfold step, handle. destruct (fileUrl (viewer w));
      rewrite commit_same by reflexivity; split; reflexivity.
  - left. unfold step, handle. destruct (fileUrl (viewer w));
      rewrite commit_same by reflexivity; split; reflexivity.
  - left. unfold step, handle.
    destruct (truthy_opt (selectedText (page w)));
      rewrite commit_same by reflexivity; split; reflexivity.
  - destruct (truthy_opt (selectedText (page w))) eqn:Hsel.
    2:{ left. unfold step, handle. rewrite Hsel.
        rewrite commit_same by reflexivity. split; reflexivity. }
    destruct (selectedText (page w)) as [sel|] eqn:Hs; [|discriminate].
    apply truthy_true in Hsel.
    destruct (trim (highlightInput (page w))) as [|u t] eqn:Ht.
    { left. unfold step, handle. rewrite Hs. cbn [truthy_opt].
      apply truthy_true in Hsel. rewrite Hsel.
      rewrite handleHighlightSubmit_ignored by (left; exact Ht).
      rewrite commit_same by reflexivity. split; reflexivity. }
    assert (Hne : trim (highlightInput (page w)) <> [])
      by (rewrite Ht; discriminate).
    destruct (step_Submit_accepted env w sel Hs Hsel Hne) as (k & -> & _).
    right. left. exists k. split; reflexivity.
  - destruct (pending w !! id) as [k|] eqn:Hk.
    2:{ left. unfold step, handle. rewrite Hk.
        rewrite commit_same by reflexivity. split; reflexivity. }
    destruct (sound_pending _ _ H _ _ Hk) as [[kind Hkind] _].
    right. right. exists id, settled. split; [reflexivity|].
    rewrite (step_Settle env id settled k (reply kind settled) w Hk)
      by (intros w'; apply Hkind).
    destruct (page_acts_frame (reply kind settled)
                (with_pending (delete id) w)) as (_ & _ & _ & -> & ->).
    split; reflexivity.
Qed.

(** X1.  No request is ever cancelled, and an event sends one request at
    most: a request in flight stays in flight, with the same rest of its
    handler, through every event but the one that settles it; the number
    of requests sent grows by one at most. *)
Theorem requests_are_never_cancelled (env : option jsstring)
    (evs : list Event) (ev : Event) (id : nat)
    (k : FetchSettled -> Prog PageE unit) :
  let w := run env evs World_init in
  pending w !! id = Some k ->
  settles id ev = false ->
  pending (step env w ev) !! id = Some k
  /\ (nextRequest w <= nextRequest (step env w ev) <= S (nextRequest w))%nat.
Proof.
  intros w Hk Hev.
  assert (H : Sound env w) by (apply run_Sound, Sound_init).
  destruct (sound_pending _ _ H _ _ Hk) as [_ Hlt].
  destruct (step_pending env ev w H)
    as [[-> ->] | [(k' & -> & ->) | (id' & settled & -> & -> & ->)]].
  - split; [exact Hk | lia].
  - split; [|lia]. rewrite lookup_insert_ne by lia. exact Hk.
  - split; [|lia]. rewrite lookup_delete_ne; [exact Hk|].
    cbn [settles] in Hev. apply Nat.eqb_neq in Hev. exact Hev.
Qed.

(** X2.  Every call of [fetch] by the handlers, in any sequence of events,
    is the one of [callRAG]: a POST of JSON to one of the two endpoints
    under the backend URL, with the question as its body (and the file
    name, for the overview).  What [react-pdf] loads on its own, the
    worker script and the document behind the object URL, is no call of
    [fetch] by these handlers and is not in the log. *)
Theorem requests_go_to_the_backend (env : option jsstring)
    (evs : list Event) :
  Forall (request_ok env) (trace (run env evs World_init)).
Proof.
  exact (sound_requests env _ (run_Sound env evs _ (Sound_init env))).
Qed.

(** X3.  No handler lets an error escape: the log of any sequence of events
    holds no uncaught error and no unhandled rejection, whatever the
    network answers. *)
Theorem no_error_is_left_uncaught (env : option jsstring)
    (evs : list Event) :
  Forall caught (trace (run env evs World_init)).
Proof.
  exact (sound_caught env _ (run_Sound env evs _ (Sound_init env))).
Qed.

(** X4.  The events of the page (typing, submitting, a request that settles)
    never touch the viewer or the object URLs; the load events of the
    document never touch the page or the requests in flight. *)
Theorem page_and_viewer_keep_apart (env : option jsstring)
    (evs : list Event) (ev : Event) :
  let w := run env evs World_init in
  let w' := step env w ev in
  (page_event ev = true ->
   viewer w' = viewer w /\ live w' = live w /\ nextUrl w' = nextUrl w)
  /\ (document_event ev = true ->
      page w' = page w /\ pending w' = pending w /\ live w' = live w
      /\ fileUrl (viewer w') = fileUrl (viewer w)
      /\ highlightRect (viewer w') = highlightRect (viewer w)).
Proof.
  intros w w'.
  assert (H : Sound env w) by (apply run_Sound, Sound_init).
  subst w'. split; intros Hev.
  - destruct ev as [files|sel cont|target cont sel|n|err|v| |id settled];
      try discriminate.
    + unfold step, handle.
      destruct (truthy_opt (selectedText (page w)));
        rewrite commit_same by reflexivity; repeat split.
    + destruct (truthy_opt (selectedText (page w))) eqn:Hsel.
      2:{ unfold step, handle. rewrite Hsel.
          rewrite commit_same by reflexivity. repeat split. }
      destruct (selectedText (page w)) as [sel|] eqn:Hs; [|discriminate].
      apply truthy_true in Hsel.
      destruct (trim (highlightInput (page w))) as [|u t] eqn:Ht.
      { unfold step, handle. rewrite Hs. cbn [truthy_opt].
        apply truthy_true in Hsel. rewrite Hsel.
        rewrite handleHighlightSubmit_ignored by (left; exact Ht).
        rewrite commit_same by reflexivity. repeat split. }
      assert (Hne : trim (highlightInput (page w)) <> [])
        by (rewrite Ht; discriminate).
      destruct (step_Submit_accepted env w sel Hs Hsel Hne) as (k & -> & _).
      repeat split.
    + destruct (pending w !! id) as [k|] eqn:Hk.
      2:{ unfold step, handle. rewrite Hk.
          rewrite commit_same by reflexivity. repeat split. }
      destruct (sound_pending _ _ H _ _ Hk) as [[kind Hkind] _].
      rewrite (step_Settle env id settled k (reply kind settled) w Hk)
        by (intros w0; apply Hkind).
      destruct (page_acts_frame (reply kind settled)
                  (with_pending (delete id) w)) as (-> & -> & -> & _).
      repeat split.
  - destruct ev as [files|sel cont|target cont sel|n|err|v| |id settled];
      try discriminate.
    + unfold step, handle. destruct (fileUrl (viewer w)) eqn:Hu;
        rewrite commit_same by reflexivity; repeat split; exact Hu.
    + unfold step, handle. destruct (fileUrl (viewer w)) eqn:Hu;
        rewrite commit_same by reflexivity; repeat split; exact Hu.
Qed.

(* ===================================================================== *)
(** ** Replies that come late *)
(* ===================================================================== *)

Lemma step_FileChange_counter (env : option jsstring) (file : File)
    (rest : list File) (w : World) :
  nextRequest (step env w (FileChange (Some (file :: rest))))
  = S (nextRequest w).
Proof.
  unfold step.
  rewrite (handle_FileChange_some env (Some (file :: rest)) file w eq_refl).
  rewrite handleFileLoaded_run, handleClearSelection_run.
  match goal with
  | |- context [run_page (fetchOverviewForFile env ?n) ?x] =>
      destruct (fetchOverviewForFile_run env n x) as (k & -> & _)
  end.
  match goal with
  | |- context [commit env (viewer w) ?x] =>
      destruct (commit_cases env (viewer w) x) as [-> | ->];
      [|destruct (revoke_opt_frame (fileUrl (viewer w)) x)
          as (_ & _ & _ & ->)]
  end.
  all: destruct (fileUrl (viewer w)); reflexivity.
Qed.

(** X5.  The overview request of an earlier upload is not guarded against a
    later one: when it settles after a second file was chosen, its reply
    is written into the overview cells under the name of the second file
    and clears the loading flag, while the request of the second file is
    still in flight. *)
Theorem late_overview_reply_is_applied (env : option jsstring)
    (first second : File) (rest1 rest2 : list File)
    (settled : FetchSettled) (w : World) :
  let id := nextRequest w in
  let w1 := step env w (FileChange (Some (first :: rest1))) in
  let w2 := step env w1 (FileChange (Some (second :: rest2))) in
  let w3 := step env w2 (Settle id settled) in
  page w2
  = {| overviewText := [];
       overviewLoading := true;
       overviewError := None;
       currentFileName := Some (name second);
       selectedText := None;
       highlightMessages := [];
       highlightInput := [] |}
  /\ page w3
     = match backend_reply settled with
       | Some res =>
           {| overviewText := answer res;
              overviewLoading := false;
              overviewError := None;
              currentFileName := Some (name second);
              selectedText := None;
              highlightMessages := [];
              highlightInput := [] |}
       | None =>
           {| overviewText := [];
              overviewLoading := false;
              overviewError := Some OVERVIEW_ERROR;
              currentFileName := Some (name second);
              selectedText := None;
              highlightMessages := [];
              highlightInput := [] |}
       end
  /\ is_Some (pending w3 !! S id).
Proof.
  intros id w1 w2 w3.
  destruct (step_FileChange_state env first rest1 w) as (_ & _ & k1 & Hk1 & Hr1).
  fold w1 in Hk1.
  assert (Hn1 : nextRequest w1 = S id) by apply step_FileChange_counter.
  destruct (step_FileChange_state env second rest2 w1)
    as (Hp2 & _ & k2 & Hk2 & _).
  fold w2 in Hp2, Hk2. rewrite Hn1, Hk1 in Hk2.
  assert (Hl : pending w2 !! id = Some k1).
  { rewrite Hk2, lookup_insert_ne by (unfold id; lia).
    apply lookup_insert_eq. }
  assert (Hw3 : w3 = page_acts (overview_reply settled)
                       (with_pending (delete id) w2)).
  { apply (step_Settle env id settled k1); [exact Hl | intros w0; apply Hr1]. }
  split; [exact Hp2|]. split.
  - rewrite Hw3, page_acts_page, overview_reply_page.
    change (page (with_pending (delete id) w2)) with (page w2).
    rewrite Hp2. destruct (backend_reply settled); reflexivity.
  - rewrite Hw3.
    destruct (page_acts_frame (overview_reply settled)
                (with_pending (delete id) w2)) as (_ & _ & _ & -> & _).
    change (is_Some (delete id (pending w2) !! S id)).
    rewrite lookup_delete_ne by (unfold id; lia).
    rewrite Hk2. exists k2. apply lookup_insert_eq.
Qed.

(** X6.  The explanation of an earlier selection is not guarded against a
    later one either: when it settles after a new selection was made, it
    becomes the conversation shown under the new selected text, while
    the request of the new selection is still in flight. *)
Theorem late_explanation_lands_on_new_selection (env : option jsstring)
    (s1 s2 : Selection) (c1 c2 : Container) (settled : FetchSettled)
    (w : World) :
  isCollapsed s1 = false -> trim (toString s1) <> [] ->
  isCollapsed s2 = false -> trim (toString s2) <> [] ->
  let id := nextRequest w in
  let w1 := step env w (MouseUp (Some s1) (Some c1)) in
  let w2 := step env w1 (MouseUp (Some s2) (Some c2)) in
  let w3 := step env w2 (Settle id settled) in
  selectedText (page w3) = Some (trim (toString s2))
  /\ highlightMessages (page w3) = [explanation settled]
  /\ highlight_pane (page w3)
     = [Conversation (trim (toString s2)) [bubble 0 (explanation settled)] []]
  /\ is_Some (pending w3 !! S id).
Proof.
  intros Hc1 Ht1 Hc2 Ht2 id w1 w2 w3.
  destruct (step_MouseUp_selected env s1 c1 w Hc1 Ht1) as (k1 & Hw1 & Hr1).
  fold w1 in Hw1.
  assert (Hn1 : nextRequest w1 = S id) by (rewrite Hw1; reflexivity).
  assert (Hp1 : pending w1 = <[id := k1]> (pending w))
    by (rewrite Hw1; reflexivity).
  destruct (step_MouseUp_selected env s2 c2 w1 Hc2 Ht2) as (k2 & Hw2 & _).
  fold w2 in Hw2.
  assert (Hp2 : pending w2 = <[S id := k2]> (<[id := k1]> (pending w))).
  { rewrite Hw2, <- Hn1, <- Hp1. reflexivity. }
  assert (Hpage2 : selectedText (page w2) = Some (trim (toString s2))
                   /\ highlightInput (page w2) = []).
  { rewrite Hw2. split; reflexivity. }
  assert (Hl : pending w2 !! id = Some k1).
  { rewrite Hp2, lookup_insert_ne by lia. apply lookup_insert_eq. }
  assert (Hw3 : w3 = page_acts (selection_reply settled)
                       (with_pending (delete id) w2)).
  { apply (step_Settle env id settled k1); [exact Hl | intros w0; apply Hr1]. }
  assert (Hpage3 : page w3
                   = {| overviewText := overviewText (page w2);
                        overviewLoading := overviewLoading (page w2);
                        overviewError := overviewError (page w2);
                        currentFileName := currentFileName (page w2);
                        selectedText := Some (trim (toString s2));
                        highlightMessages := [explanation settled];
                        highlightInput := [] |}).
  { rewrite Hw3, page_acts_page, selection_reply_page.
    change (page (with_pending (delete id) w2)) with (page w2).
    destruct Hpage2 as [-> ->]. reflexivity. }
  rewrite Hpage3. split; [reflexivity|]. split; [reflexivity|]. split.
  - unfold highlight_pane. cbn [selectedText truthy_opt String_of
                                highlightMessages highlightInput].
    apply truthy_true in Ht2. rewrite Ht2. reflexivity.
  - rewrite Hw3.
    destruct (page_acts_frame (selection_reply settled)
                (with_pending (delete id) w2)) as (_ & _ & _ & -> & _).
    change (is_Some (delete id (pending w2) !! S id)).
    rewrite lookup_delete_ne by lia.
    rewrite Hp2. exists k2. apply lookup_insert_eq.
Qed.

(* ===================================================================== *)
(** ** Pressing the pointer *)
(* ===================================================================== *)

(** X7.  A press on rendered content, or while the pane is not mounted,
    changes nothing.  A press on the background of the pane clears the
    highlight rectangle, calls the selection-cleared prop (the page
    resets its highlight cells), and collapses the browser selection when
    there is one; it sends nothing, cancels nothing, and leaves the file,
    the page count and the overview alone. *)
Theorem pointer_press (env : option jsstring) (c : Container)
    (selection : option Selection) (w : World) :
  (forall container,
     step env w (MouseDown RenderedContent container selection) = w)
  /\ (forall target, step env w (MouseDown target None selection) = w)
  /\ let w' := step env w (MouseDown TheContainer (Some c) selection) in
     viewer w'
     = {| fileObj := fileObj (viewer w);
          fileUrl := fileUrl (viewer w);
          numPages := numPages (viewer w);
          highlightRect := None |}
     /\ page w'
        = {| overviewText := overviewText (page w);
             overviewLoading := overviewLoading (page w);
             overviewError := overviewError (page w);
             currentFileName := currentFileName (page w);
             selectedText := None;
             highlightMessages := [];
             highlightInput := [] |}
     /\ pending w' = pending w
     /\ nextRequest w' = nextRequest w
     /\ live w' = live w
     /\ trace w'
        = match selection with
          | Some _ => [ViewerDid RemoveAllRanges]
          | None => []
          end
          ++ [ PageDid (SetHighlightInput []);
               PageDid (SetHighlightMessages []);
               PageDid (SetSelectedText None);
               ViewerDid OnClearSelection;
               ViewerDid (SetHighlightRect None) ]
          ++ trace w.
Proof.
  split; [|split].
  - intros container. apply step_MouseDown_elsewhere. left. reflexivity.
  - intros target. apply step_MouseDown_elsewhere. right. reflexivity.
  - intros w'. subst w'. rewrite step_MouseDown_background.
    destruct selection; repeat split.
Qed.

(* ===================================================================== *)
(** ** What holds after any number of events *)
(* ===================================================================== *)

(** X8.  The rectangle of the viewer and the selected text of the page are
    set and cleared together; the selected text is never empty and never
    has white space around it; so the highlight pane shows the hint
    exactly when the viewer holds no rectangle, and the conversation
    under the selected text otherwise. *)
Theorem highlight_follows_selection (env : option jsstring)
    (evs : list Event) :
  let w := run env evs World_init in
  (highlightRect (viewer w) = None <-> selectedText (page w) = None)
  /\ (forall t, selectedText (page w) = Some t -> t <> [] /\ trim t = t)
  /\ highlight_pane (page w)
     = match selectedText (page w) with
       | None => [HighlightHint]
       | Some t =>
           [Conversation t (imap bubble (highlightMessages (page w)))
              (highlightInput (page w))]
       end.
Proof.
  intros w.
  assert (H : Sound env w) by (apply run_Sound, Sound_init).
  split; [exact (sound_sync _ _ H)|]. split; [exact (sound_trimmed _ _ H)|].
  unfold highlight_pane.
  destruct (selectedText (page w)) as [t|] eqn:Ht; [|reflexivity].
  destruct (sound_trimmed _ _ H t Ht) as [Hne _].
  apply truthy_true in Hne. cbn [truthy_opt String_of]. rewrite Hne.
  reflexivity.
Qed.

(** X9.  The object URL the viewer renders is the one live object URL of the
    tab, and it was handed out by [URL.createObjectURL]; while the
    prompt to upload is rendered no object URL is live. *)
Theorem rendered_url_is_live (env : option jsstring) (evs : list Event) :
  let w := run env evs World_init in
  match pane (PDFInner_render (viewer w)) with
  | DocumentView url _ _ =>
      live w = {[ url ]} /\ (serial url < nextUrl w)%nat
  | UploadPrompt => live w = ∅
  end.
Proof.
  intros w.
  assert (H : Sound env w) by (apply run_Sound, Sound_init).
  pose proof (sound_live _ _ H) as Hl.
  pose proof (sound_fresh _ _ H) as Hf.
  unfold held in Hl. unfold PDFInner_render. cbn [pane].
  destruct (fileUrl (viewer w)) as [url|]; [|exact Hl].
  split; [exact Hl | apply Hf; reflexivity].
Qed.

(** X10.  The file name the page shows is the name beside the upload button of
    the viewer, and there is a name exactly when a document is rendered. *)
Theorem file_name_agrees (env : option jsstring) (evs : list Event) :
  let w := run env evs World_init in
  currentFileName (page w) = fileLabel (PDFInner_render (viewer w))
  /\ (fileLabel (PDFInner_render (viewer w)) = None
      <-> pane (PDFInner_render (viewer w)) = UploadPrompt).
Proof.
  intros w.
  assert (H : Sound env w) by (apply run_Sound, Sound_init).
  split; [exact (sound_name _ _ H)|].
  pose proof (sound_file _ _ H) as Hf.
  unfold PDFInner_render. cbn [fileLabel pane].
  destruct (fileObj (viewer w)), (fileUrl (viewer w)); split; intros E;
    try reflexivity; try discriminate.
  - destruct Hf as [_ Hf]. discriminate (Hf eq_refl).
  - destruct Hf as [Hf _]. discriminate (Hf eq_refl).
Qed.

(** X11.  A message of the user in the conversation is never empty and has no
    white space around it. *)
Theorem user_messages_are_trimmed (env : option jsstring)
    (evs : list Event) :
  Forall user_ok (highlightMessages (page (run env evs World_init))).
Proof.
  exact (sound_user env _ (run_Sound env evs _ (Sound_init env))).
Qed.

(** X12.  While the overview is shown as loading, an overview request is in
    flight whose reply will clear the flag. *)
Theorem loading_has_a_request_in_flight (env : option jsstring)
    (evs : list Event) :
  let w := run env evs World_init in
  overviewLoading (page w) = true ->
  exists id k,
    pending w !! id = Some k
    /\ (id < nextRequest w)%nat
    /\ forall settled,
         overviewLoading (page (step env w (Settle id settled))) = false.
Proof.
  intros w Hl.
  assert (H : Sound env w) by (apply run_Sound, Sound_init).
  destruct (sound_loading _ _ H Hl) as (id & k & Hk & Hr).
  exists id, k. split; [exact Hk|].
  split; [exact (proj2 (sound_pending _ _ H _ _ Hk))|].
  intros settled.
  rewrite (step_Settle env id settled k (overview_reply settled) w Hk)
    by (intros w0; apply (Hr settled w0)).
  rewrite page_acts_page, overview_reply_page.
  destruct (backend_reply settled); reflexivity.
Qed.

(* ===================================================================== *)
(** ** The overview pane *)
(* ===================================================================== *)

(** X13.  The overview pane shows at most one of its four blocks, and none at
    all exactly when a file is named, nothing is loading, there is no
    error and the overview text is empty. *)
Theorem overview_pane_exclusive (s : PageState) :
  (length (overview_pane s) <= 1)%nat
  /\ (overview_pane s = []
      <-> truthy_opt (currentFileName s) = true
          /\ overviewLoading s = false
          /\ truthy_opt (overviewError s) = false
          /\ overviewText s = []).
Proof.
  unfold overview_pane, show.
  destruct (truthy_opt (currentFileName s)), (overviewLoading s),
    (truthy_opt (overviewError s)), (overviewText s) as [|u t];
    cbn [negb andb app length truthy];
    (split; [lia|]); split;
    try discriminate; try (intros (? & ? & ? & ?); discriminate);
    repeat split.
Qed.

(** X14.  After an upload the pane shows that the overview of the file is
    being generated (the hint to upload if the name of the file is
    empty).  Whenever the request of the upload settles, in any later
    state in which it is still in flight, the pane shows the hint to
    upload if the file name on display is empty; otherwise the fixed
    error text if the request failed; otherwise the error an earlier
    reply left, if there is one, and else the answer of the backend,
    nothing if that answer is empty.  When the request settles next, no
    such error is left. *)
Theorem overview_pane_after_upload (env : option jsstring) (file : File)
    (rest : list File) (w : World) :
  let id := nextRequest w in
  let w1 := step env w (FileChange (Some (file :: rest))) in
  overview_pane (page w1)
  = (if truthy (name file) then [Generating (name file)] else [UploadHint])
  /\ is_Some (pending w1 !! id)
  /\ (forall settled w',
        pending w' !! id = pending w1 !! id ->
        overview_pane (page (step env w' (Settle id settled)))
        = if truthy_opt (currentFileName (page w'))
          then match backend_reply settled with
               | Some res =>
                   if truthy_opt (overviewError (page w'))
                   then [OverviewFailed (String_of (overviewError (page w')))]
                   else show (truthy (answer res))
                          (OverviewMarkdown (answer res))
               | None => [OverviewFailed OVERVIEW_ERROR]
               end
          else [UploadHint])
  /\ forall settled,
       overview_pane (page (step env w1 (Settle id settled)))
       = if truthy (name file)
         then match backend_reply settled with
              | Some res => show (truthy (answer res))
                              (OverviewMarkdown (answer res))
              | None => [OverviewFailed OVERVIEW_ERROR]
              end
         else [UploadHint].
Proof.
  intros id w1.
  destruct (step_FileChange_state env file rest w) as (Hp & _ & k & Hk & Hr).
  fold w1 in Hp, Hk.
  assert (Hl : pending w1 !! id = Some k)
    by (rewrite Hk; apply lookup_insert_eq).
  assert (Hgen : forall settled w',
            pending w' !! id = pending w1 !! id ->
            overview_pane (page (step env w' (Settle id settled)))
            = if truthy_opt (currentFileName (page w'))
              then match backend_reply settled with
                   | Some res =>
                       if truthy_opt (overviewError (page w'))
                       then [OverviewFailed
                               (String_of (overviewError (page w')))]
                       else show (truthy (answer res))
                              (OverviewMarkdown (answer res))
                   | None => [OverviewFailed OVERVIEW_ERROR]
                   end
              else [UploadHint]).
  { intros settled w' Hp'. rewrite Hl in Hp'.
    rewrite (step_Settle env id settled k (overview_reply settled) w' Hp')
      by (intros w0; apply Hr).
    rewrite page_acts_page, overview_reply_page.
    change (page (with_pending (delete id) w')) with (page w').
    unfold overview_pane, show.
    destruct (backend_reply settled) as [res|];
      cbn [currentFileName overviewLoading overviewError overviewText
           truthy_opt String_of];
      destruct (truthy_opt (currentFileName (page w'))); try reflexivity.
    destruct (truthy_opt (overviewError (page w'))); reflexivity. }
  split; [|split; [exists k; exact Hl|split; [exact Hgen|]]].
  - rewrite Hp. unfold overview_pane, show.
    cbn [currentFileName overviewLoading overviewError overviewText
         truthy_opt String_of].
    destruct (truthy (name file)); reflexivity.
  - intros settled. rewrite (Hgen settled w1 eq_refl), Hp.
    cbn [currentFileName overviewError truthy_opt].
    destruct (truthy (name file)); reflexivity.
Qed.

(* ===================================================================== *)
(** ** The pages of the document *)
(* ===================================================================== *)

Lemma lit_inj (s t : String.string) : lit s = lit t -> s = t.
Proof.
  unfold lit. intros H.
  rewrite <- (string_of_list_ascii_of_string s),
          <- (string_of_list_ascii_of_string t).
  f_equal.
  revert H. generalize (list_ascii_of_string s), (list_ascii_of_string t).
  induction l as [|a l IH]; intros [|b m] H; try discriminate;
    [reflexivity|].
  cbn [List.map] in H. injection H as Hab Hlm.
  f_equal; [|apply IH, Hlm].
  rewrite <- (ascii_N_embedding a), <- (ascii_N_embedding b), Hab.
  reflexivity.
Qed.

Lemma number_to_string_inj (m n : N) :
  number_to_string m = number_to_string n -> m = n.
Proof.
  unfold number_to_string. intros H. apply lit_inj in H.
  assert (Hu : N.to_uint m = N.to_uint n).
  { pose proof (NilEmpty.usu (N.to_uint m)) as Hm.
    pose proof (NilEmpty.usu (N.to_uint n)) as Hn.
    rewrite H in Hm. congruence. }
  rewrite <- (DecimalN.Unsigned.of_to m), <- (DecimalN.Unsigned.of_to n), Hu.
  reflexivity.
Qed.

(** X15.  [pages n] are [n] pages, numbered from 1 to [n] in order, each under
    the key ["page_"] followed by its number, and no two under the same
    key. *)
Theorem pages_are_numbered (n : N) :
  length (pages n) = N.to_nat n
  /\ List.map PageProps.pageNumber (pages n)
     = List.map (fun i => N.of_nat (S i)) (List.seq 0 (N.to_nat n))
  /\ Forall (fun p => PageProps.key p
                      = lit "page_" ++ number_to_string (PageProps.pageNumber p))
       (pages n)
  /\ NoDup (List.map PageProps.key (pages n)).
Proof.
  unfold pages. repeat split.
  - rewrite !List.length_map, List.length_seq. reflexivity.
  - rewrite !List.map_map. apply List.map_ext. intros i.
    cbn [PageProps.pageNumber]. lia.
  - apply List.Forall_forall. intros p Hin.
    apply List.in_map_iff in Hin. destruct Hin as (i & <- & _).
    cbn [PageProps.key PageProps.pageNumber template List.concat].
    rewrite List.app_nil_r. reflexivity.
  - rewrite !List.map_map.
    apply NoDup_ListNoDup.
    apply Finite.Injective_map_NoDup; [|apply List.seq_NoDup].
    intros i j. cbn [PageProps.key template List.concat].
    rewrite !List.app_nil_r. intros H.
    apply List.app_inv_head in H. apply number_to_string_inj in H. lia.
Qed.

(** X16.  An upload does not reset the page count: until the new document has
    loaded, the pages given to [Document] are counted as in the previous
    document.  A successful load sets the count; a failed load logs the
    error and leaves what is rendered as it is. *)
Theorem page_count_outlives_the_document (env : option jsstring)
    (file : File) (rest : list File) (n : N) (error : JsError) (w : World) :
  let w1 := step env w (FileChange (Some (file :: rest))) in
  PDFInner_render (viewer w1)
  = {| fileLabel := Some (name file);
       pane := DocumentView (fresh_url w) (pages (numPages (viewer w))) None |}
  /\ PDFInner_render (viewer (step env w1 (DocumentLoadSuccess n)))
     = {| fileLabel := Some (name file);
          pane := DocumentView (fresh_url w) (pages n) None |}
  /\ PDFInner_render (viewer (step env w1 (DocumentLoadError error)))
     = PDFInner_render (viewer w1)
  /\ trace (step env w1 (DocumentLoadError error))
     = ViewerDid (ViewerConsoleError [LStr (lit "PDF load error:"); LErr error])
       :: trace w1.
Proof.
  intros w1.
  destruct (step_FileChange_state env file rest w) as (_ & Hv & _).
  fold w1 in Hv.
  assert (Hu : fileUrl (viewer w1) = Some (fresh_url w))
    by (rewrite Hv; reflexivity).
  split; [rewrite Hv; reflexivity|].
  unfold step, handle. rewrite Hu.
  rewrite !commit_same by reflexivity.
  repeat split.
  cbn. rewrite Hv. reflexivity.
Qed.

(* ===================================================================== *)
(** ** The follow-up form and selections outside a document *)
(* ===================================================================== *)

(** X17.  The input of the follow-up form shows what was typed.  Submitting it
    adds a right-aligned bubble with the trimmed text under the next
    index and empties the input; if only white space was typed, the
    bubbles stay as they are and the input keeps what was typed. *)
Theorem followup_form_is_controlled (env : option jsstring) (sel : jsstring)
    (value : jsstring) (w : World) :
  selectedText (page w) = Some sel -> sel <> [] ->
  let w1 := step env w (InputChange value) in
  let w2 := step env w1 Submit in
  let shown := imap bubble (highlightMessages (page w)) in
  highlight_pane (page w1) = [Conversation sel shown value]
  /\ highlight_pane (page w2)
     = if blank value
       then [Conversation sel shown value]
       else [Conversation sel
               (shown
                ++ [ {| MessageBubble.key := length (highlightMessages (page w));
                        MessageBubble.textAlign := AlignRight;
                        MessageBubble.backgroundColor := lit "#2563eb";
                        MessageBubble.color := lit "#f9fafb";
                        MessageBubble.markdown := trim value |} ])
               []].
Proof.
  intros Hs Hne w1 w2 shown.
  assert (Ht : truthy sel = true) by (apply truthy_true; exact Hne).
  assert (Hw1 : w1 = page_acts [SetHighlightInput value] w).
  { apply step_InputChange. rewrite Hs. exact Ht. }
  assert (Hp1 : page w1
                = {| overviewText := overviewText (page w);
                     overviewLoading := overviewLoading (page w);
                     overviewError := overviewError (page w);
                     currentFileName := currentFileName (page w);
                     selectedText := Some sel;
                     highlightMessages := highlightMessages (page w);
                     highlightInput := value |}).
  { rewrite Hw1, page_acts_page. cbn [List.fold_left page_apply].
    rewrite <- Hs. reflexivity. }
  assert (Hpane1 : highlight_pane (page w1) = [Conversation sel shown value]).
  { rewrite Hp1. unfold highlight_pane.
    cbn [selectedText truthy_opt String_of highlightMessages highlightInput].
    rewrite Ht. reflexivity. }
  split; [exact Hpane1|].
  assert (Hs1 : selectedText (page w1) = Some sel) by (rewrite Hp1; reflexivity).
  assert (Hi1 : highlightInput (page w1) = value) by (rewrite Hp1; reflexivity).
  destruct (blank value) eqn:Hb.
  - assert (Hw2 : w2 = page_do PreventDefault w1).
    { unfold w2, step, handle. rewrite Hs1. cbn [truthy_opt]. rewrite Ht.
      rewrite handleHighlightSubmit_ignored
        by (left; rewrite Hi1; apply trim_blank_iff; exact Hb).
      apply commit_same. reflexivity. }
    rewrite Hw2. exact Hpane1.
  - assert (Hnb : trim (highlightInput (page w1)) <> []).
    { rewrite Hi1. intros E. apply trim_blank_iff in E. congruence. }
    destruct (step_Submit_accepted env w1 sel Hs1 Hne Hnb) as (k & Hw2 & _).
    fold w2 in Hw2. rewrite Hw2.
    match goal with
    | |- context [page (with_pending ?f (callRAG_request ?e ?p ?b ?x))] =>
        change (page (with_pending f (callRAG_request e p b x))) with (page x)
    end.
    rewrite page_acts_page. cbn [List.fold_left page_apply].
    rewrite Hp1. unfold highlight_pane.
    cbn [selectedText truthy_opt String_of highlightMessages highlightInput].
    rewrite Ht. cbn [negb show app].
    rewrite imap_app. cbn [imap]. rewrite Nat.add_0_r. reflexivity.
Qed.

(** X18.  The pane takes a selection also while no document is rendered (the
    text of the prompt to upload can be selected): the selection is
    explained like any other, the rectangle is kept, and nothing is
    drawn over the prompt. *)
Theorem selection_without_document (env : option jsstring) (s : Selection)
    (c : Container) (w : World) :
  fileUrl (viewer w) = None ->
  isCollapsed s = false -> trim (toString s) <> [] ->
  let w' := step env w (MouseUp (Some s) (Some c)) in
  pane (PDFInner_render (viewer w')) = UploadPrompt
  /\ highlightRect (viewer w') = Some (selection_rect s c)
  /\ selectedText (page w') = Some (trim (toString s))
  /\ is_Some (pending w' !! nextRequest w)
  /\ List.hd_error (trace w')
     = Some (Requested (nextRequest w)
               (template [BACKEND_URL env; lit "/api/rag/highlight"])
               (callRAG_init
                  (JObj [(lit "question",
                          JStr (selection_question (trim (toString s))))]))).
Proof.
  intros Hu Hc Ht w'.
  destruct (step_MouseUp_selected env s c w Hc Ht) as (k & Hw & _).
  fold w' in Hw. rewrite Hw.
  split.
  { unfold PDFInner_render. cbn. rewrite Hu. reflexivity. }
  split; [reflexivity|]. split; [reflexivity|]. split; [|reflexivity].
  exists k. cbn [pending with_pending]. apply lookup_insert_eq.
Qed.

(** X19.  The highlight flow (the pointer over the pane, the follow-up form)
    never touches the overview, the file name, the document or its
    object URL. *)
Theorem highlight_flow_leaves_overview (env : option jsstring) (ev : Event)
    (w : World) :
  highlight_event ev = true ->
  let w' := step env w ev in
  overviewText (page w') = overviewText (page w)
  /\ overviewLoading (page w') = overviewLoading (page w)
  /\ overviewError (page w') = overviewError (page w)
  /\ currentFileName (page w') = currentFileName (page w)
  /\ fileObj (viewer w') = fileObj (viewer w)
  /\ fileUrl (viewer w') = fileUrl (viewer w)
  /\ numPages (viewer w') = numPages (viewer w)
  /\ live w' = live w.
Proof.
  intros Hev w'. subst w'.
  destruct ev as [files|sel cont|target cont sel|n|err|v| |id settled];
    try discriminate.
  - assert (Hignored :
              match sel with
              | None => True
              | Some s => isCollapsed s = true \/ trim (toString s) = []
              end \/ cont = None ->
              step env w (MouseUp sel cont) = w).
    { intros Hi. unfold step, handle. rewrite handleMouseUp_ignored by exact Hi.
      apply commit_same. reflexivity. }
    destruct sel as [s|]; [|rewrite Hignored by tauto; repeat split].
    destruct cont as [c|]; [|rewrite Hignored by tauto; repeat split].
    destruct (isCollapsed s) eqn:Hc; [rewrite Hignored by tauto; repeat split|].
    destruct (trim (toString s)) as [|u t] eqn:Ht;
      [rewrite Hignored by tauto; repeat split|].
    assert (Hne : trim (toString s) <> []) by (rewrite Ht; discriminate).
    destruct (step_MouseUp_selected env s c w Hc Hne) as (k & -> & _).
    repeat split.
  - destruct cont as [c|];
      [|rewrite step_MouseDown_elsewhere by (right; reflexivity);
        repeat split].
    destruct target;
      [|rewrite step_MouseDown_elsewhere by (left; reflexivity);
        repeat split].
    rewrite step_MouseDown_background. destruct sel; repeat split.
  - destruct (truthy_opt (selectedText (page w))) eqn:Hs.
    + rewrite step_InputChange by exact Hs. repeat split.
    + unfold step, handle. rewrite Hs. rewrite commit_same by reflexivity.
      repeat split.
  - destruct (truthy_opt (selectedText (page w))) eqn:Hsel.
    2:{ unfold step, handle. rewrite Hsel.
        rewrite commit_same by reflexivity. repeat split. }
    destruct (selectedText (page w)) as [sel|] eqn:Hs; [|discriminate].
    apply truthy_true in Hsel.
    destruct (trim (highlightInput (page w))) as [|u t] eqn:Ht.
    { unfold step, handle. rewrite Hs. cbn [truthy_opt].
      apply truthy_true in Hsel. rewrite Hsel.
      rewrite handleHighlightSubmit_ignored by (left; exact Ht).
      rewrite commit_same by reflexivity. repeat split. }
    assert (Hne : trim (highlightInput (page w)) <> [])
      by (rewrite Ht; discriminate).
    destruct (step_Submit_accepted env w sel Hs Hsel Hne) as (k & -> & _).
    repeat split.
Qed.

(* ===================================================================== *)
(** ** The further properties at sample inputs *)
(* ===================================================================== *)

(** The overview request of the sample upload is still in flight after a
    selection. *)
Lemma requests_are_never_cancelled_witness :
  settles 0 (MouseUp (Some sample_selection) (Some sample_container)) = false
  /\ is_Some
       (pending
          (step None (run None [FileChange (Some [sample_file])] World_init)
             (MouseUp (Some sample_selection) (Some sample_container)))
        !! 0%nat).
Proof.
  destruct (pending (run None [FileChange (Some [sample_file])] World_init)
            !! 0%nat) as [k|] eqn:Hk.
  - split; [reflexivity|]. exists k.
    exact (proj1 (requests_are_never_cancelled None
                    [FileChange (Some [sample_file])]
                    (MouseUp (Some sample_selection) (Some sample_container))
                    0 k Hk eq_refl)).
  - vm_compute in Hk. discriminate Hk.
Defined.

(** Typing into the follow-up form after the sample upload and selection
    leaves the viewer as it is. *)
Lemma page_and_viewer_keep_apart_witness :
  page_event (InputChange sample_question) = true
  /\ viewer
       (step None
          (run None [FileChange (Some [sample_file]);
                     MouseUp (Some sample_selection) (Some sample_container)]
             World_init)
          (InputChange sample_question))
     = viewer
         (run None [FileChange (Some [sample_file]);
                    MouseUp (Some sample_selection) (Some sample_container)]
            World_init).
Proof.
  split; [reflexivity|].
  exact (proj1 (proj1 (page_and_viewer_keep_apart None
                         [FileChange (Some [sample_file]);
                          MouseUp (Some sample_selection)
                            (Some sample_container)]
                         (InputChange sample_question))
                  eq_refl)).
Defined.

(** The explanation of the sample selection, arriving after the second
    selection, is shown under the second. *)
Lemma late_explanation_lands_on_new_selection_witness :
  isCollapsed sample_selection = false
  /\ trim (toString sample_selection) <> []
  /\ isCollapsed other_selection = false
  /\ trim (toString other_selection) <> []
  /\ selectedText
       (page (step None
                (step None
                   (step None World_init
                      (MouseUp (Some sample_selection)
                         (Some sample_container)))
                   (MouseUp (Some other_selection) (Some sample_container)))
                (Settle (nextRequest World_init) summary_reply)))
     = Some (trim (toString other_selection)).
Proof.
  assert (H1 : isCollapsed sample_selection = false) by reflexivity.
  assert (H2 : trim (toString sample_selection) <> [])
    by (vm_compute; discriminate).
  assert (H3 : isCollapsed other_selection = false) by reflexivity.
  assert (H4 : trim (toString other_selection) <> [])
    by (vm_compute; discriminate).
  split; [exact H1|]. split; [exact H2|]. split; [exact H3|].
  split; [exact H4|].
  exact (proj1 (late_explanation_lands_on_new_selection None sample_selection
                  other_selection sample_container sample_container
                  summary_reply World_init H1 H2 H3 H4)).
Defined.

(** After the sample upload the overview is loading, and its request is
    in flight. *)
Lemma loading_has_a_request_in_flight_witness :
  overviewLoading
    (page (run None [FileChange (Some [sample_file])] World_init)) = true
  /\ exists id k,
       pending (run None [FileChange (Some [sample_file])] World_init) !! id
       = Some k
       /\ (id < nextRequest
                  (run None [FileChange (Some [sample_file])] World_init))%nat
       /\ forall settled,
            overviewLoading
              (page (step None
                       (run None [FileChange (Some [sample_file])] World_init)
                       (Settle id settled))) = false.
Proof.
  assert (H : overviewLoading
                (page (run None [FileChange (Some [sample_file])] World_init))
              = true) by (vm_compute; reflexivity).
  split; [exact H|].
  exact (loading_has_a_request_in_flight None
           [FileChange (Some [sample_file])] H).
Defined.

(** The sample question shows in the input of the form as typed. *)
Lemma followup_form_is_controlled_witness :
  selectedText (page sample_selected)
  = Some (lit "Coinsurance: 20% after deductible")
  /\ lit "Coinsurance: 20% after deductible" <> []
  /\ highlight_pane
       (page (step None sample_selected (InputChange sample_question)))
     = [Conversation (lit "Coinsurance: 20% after deductible")
          (imap bubble (highlightMessages (page sample_selected)))
          sample_question].
Proof.
  assert (H1 : selectedText (page sample_selected)
               = Some (lit "Coinsurance: 20% after deductible"))
    by (vm_compute; reflexivity).
  assert (H2 : lit "Coinsurance: 20% after deductible" <> [])
    by (vm_compute; discriminate).
  split; [exact H1|]. split; [exact H2|].
  exact (proj1 (followup_form_is_controlled None _ sample_question
                  sample_selected H1 H2)).
Defined.

(** The sample selection made before any upload: the prompt stays. *)
Lemma selection_without_document_witness :
  fileUrl (viewer World_init) = None
  /\ isCollapsed sample_selection = false
  /\ trim (toString sample_selection) <> []
  /\ pane (PDFInner_render
             (viewer (step None World_init
                        (MouseUp (Some sample_selection)
                           (Some sample_container)))))
     = UploadPrompt.
Proof.
  assert (H1 : fileUrl (viewer World_init) = None) by reflexivity.
  assert (H2 : isCollapsed sample_selection = false) by reflexivity.
  assert (H3 : trim (toString sample_selection) <> [])
    by (vm_compute; discriminate).
  split; [exact H1|]. split; [exact H2|]. split; [exact H3|].
  exact (proj1 (selection_without_document None sample_selection
                  sample_container World_init H1 H2 H3)).
Defined.

(** The selected text after the sample upload and selection is not empty
    and is trimmed. *)
Lemma highlight_follows_selection_witness :
  selectedText
    (page (run None [FileChange (Some [sample_file]);
                     MouseUp (Some sample_selection) (Some sample_container)]
             World_init))
  = Some (lit "Coinsurance: 20% after deductible")
  /\ lit "Coinsurance: 20% after deductible" <> []
  /\ trim (lit "Coinsurance: 20% after deductible")
     = lit "Coinsurance: 20% after deductible".
Proof.
  assert (H1 : selectedText
                 (page (run None [FileChange (Some [sample_file]);
                                  MouseUp (Some sample_selection)
                                    (Some sample_container)]
                          World_init))
               = Some (lit "Coinsurance: 20% after deductible"))
    by (vm_compute; reflexivity).
  split; [exact H1|].
  exact (proj1 (proj2 (highlight_follows_selection None
                         [FileChange (Some [sample_file]);
                          MouseUp (Some sample_selection)
                            (Some sample_container)]))
           (lit "Coinsurance: 20% after deductible") H1).
Defined.

(** Before any upload there is no name and the prompt is rendered. *)
Lemma file_name_agrees_witness :
  fileLabel (PDFInner_render (viewer (run None [] World_init))) = None
  /\ pane (PDFInner_render (viewer (run None [] World_init))) = UploadPrompt.
Proof.
  assert (H : fileLabel (PDFInner_render (viewer (run None [] World_init)))
              = None) by reflexivity.
  split; [exact H|].
  exact (proj1 (proj2 (file_name_agrees None [])) H).
Defined.

(** After the sample upload and an empty answer the pane shows nothing. *)
Lemma overview_pane_exclusive_witness :
  (truthy_opt (currentFileName
                 (page (run None [FileChange (Some [sample_file]);
                                  Settle 0 empty_answer] World_init))) = true
   /\ overviewLoading
        (page (run None [FileChange (Some [sample_file]);
                         Settle 0 empty_answer] World_init)) = false
   /\ truthy_opt (overviewError
                    (page (run None [FileChange (Some [sample_file]);
                                     Settle 0 empty_answer] World_init)))
      = false
   /\ overviewText
        (page (run None [FileChange (Some [sample_file]);
                         Settle 0 empty_answer] World_init)) = [])
  /\ overview_pane
       (page (run None [FileChange (Some [sample_file]);
                        Settle 0 empty_answer] World_init)) = [].
Proof.
  assert (H : truthy_opt (currentFileName
                 (page (run None [FileChange (Some [sample_file]);
                                  Settle 0 empty_answer] World_init))) = true
   /\ overviewLoading
        (page (run None [FileChange (Some [sample_file]);
                         Settle 0 empty_answer] World_init)) = false
   /\ truthy_opt (overviewError
                    (page (run None [FileChange (Some [sample_file]);
                                     Settle 0 empty_answer] World_init)))
      = false
   /\ overviewText
        (page (run None [FileChange (Some [sample_file]);
                         Settle 0 empty_answer] World_init)) = [])
    by (vm_compute; repeat split).
  split; [exact H|].
  exact (proj2 (proj2 (overview_pane_exclusive _)) H).
Defined.

(** After the sample upload and a second upload, the request of the
    first fails and then that of the second succeeds: the pane shows the
    error text. *)
Lemma overview_pane_after_upload_witness :
  pending
    (step None
       (step None (run None [FileChange (Some [sample_file])] World_init)
          (FileChange (Some [other_file])))
       (Settle 0 server_error))
  !! nextRequest (run None [FileChange (Some [sample_file])] World_init)
  = pending
      (step None (run None [FileChange (Some [sample_file])] World_init)
         (FileChange (Some [other_file])))
    !! nextRequest (run None [FileChange (Some [sample_file])] World_init)
  /\ overview_pane
       (page
          (step None
             (step None
                (step None
                   (run None [FileChange (Some [sample_file])] World_init)
                   (FileChange (Some [other_file])))
                (Settle 0 server_error))
             (Settle
                (nextRequest
                   (run None [FileChange (Some [sample_file])] World_init))
                summary_reply)))
     = [OverviewFailed OVERVIEW_ERROR].
Proof.
  assert (H : pending
    (step None
       (step None (run None [FileChange (Some [sample_file])] World_init)
          (FileChange (Some [other_file])))
       (Settle 0 server_error))
  !! nextRequest (run None [FileChange (Some [sample_file])] World_init)
  = pending
      (step None (run None [FileChange (Some [sample_file])] World_init)
         (FileChange (Some [other_file])))
    !! nextRequest (run None [FileChange (Some [sample_file])] World_init))
    by (vm_compute; reflexivity).
  split; [exact H|].
  rewrite (proj1 (proj2 (proj2
             (overview_pane_after_upload None other_file []
                (run None [FileChange (Some [sample_file])] World_init))))
             summary_reply _ H).
  vm_compute. reflexivity.
Defined.

(** A press on the background of the sample tab leaves the overview
    loading. *)
Lemma highlight_flow_leaves_overview_witness :
  highlight_event (MouseDown TheContainer (Some sample_container) None) = true
  /\ overviewLoading
       (page (step None sample_selected
                (MouseDown TheContainer (Some sample_container) None)))
     = overviewLoading (page sample_selected).
Proof.
  split; [reflexivity|].
  exact (proj1 (proj2 (highlight_flow_leaves_overview None
                         (MouseDown TheContainer (Some sample_container) None)
                         sample_selected eq_refl))).
Defined.
